(** * State Helper Driver (drivers/soc/qcom/state_helper.c)

    A shallow embedding of the hotplug governor and the properties of its
    reconciliation pass, its sysfs setters and its start/stop lifecycle.

    The driver is sequential C that mutates a handful of globals and calls
    into the kernel (hotplug, work queue, notifier chain, printk).  It is
    modelled by explicit state passing over a record [kernel] that holds the
    driver's globals, the part of the kernel state the driver reads, and a
    log of every call the driver makes into the kernel.  What the kernel
    decides on its own (whether a hotplug request is honoured, whether an
    allocation succeeds, what [sscanf] makes of a buffer) is a field of
    [platform]. *)

From stdpp Require Import base numbers list strings gmap sets sorting pretty.

(* set_solver clears hypotheses that are already gone *)
#[local] Set Warnings "-clear-no-such-hyp".

Local Open Scope N_scope.

(** ** Constants *)

(** [#define HELPER_ENABLED 0], [DEFAULT_SUSP_CPUS 1], [DEBUG_MASK 1]. *)
Definition HELPER_ENABLED : N := 0.
Definition DEFAULT_SUSP_CPUS : N := 1.
Definition DEBUG_MASK : N := 1.

(** errno and notifier return codes of the kernel. *)
Definition EINVAL : Z := 22.
Definition NOTIFY_OK : Z := 1.

(** ** Data *)

(** [struct state_helper]: three [unsigned int] fields.  The driver only
    assigns and compares them, so no wrap-around arises. *)
Record state_helper := StateHelper {
  enabled : N;
  max_cpus_online : N;
  debug : N
}.

(** The format strings of the driver's [pr_info]/[pr_err] calls, with their
    arguments. *)
Inductive message :=
  | MsgSwitchOffline (cpu : nat)
  | MsgSwitchOnline (cpu : nat)
  | MsgTargetAchieved (target : N)
  | MsgTargetRequested (target : N)
  | MsgCpuStatus (cpu : nat) (online : bool)
  | MsgAllocFailed
  | MsgRegisterFailed.

(** Calls the driver makes into the kernel, in program order. *)
Inductive event :=
  | CpuDown (cpu : nat)
  | CpuUp (cpu : nat)
  | PrInfo (m : message)
  | PrErr (m : message)
  | QueueDelayedWork
  | AllocWorkqueue
  | DestroyWorkqueue
  | FlushWorkqueue
  | CancelDelayedWorkSync
  | StateRegisterClient
  | StateUnregisterClient
  | SysfsCreateGroup.

(** [helper_wq]: a pointer that is NULL, live, or left dangling by
    [destroy_workqueue]. *)
Inductive wq_ptr := WqNull | WqLive | WqDestroyed.

Record kernel := Kernel {
  helper : state_helper;            (* static struct state_helper helper *)
  target_cpus : N;                  (* static unsigned int target_cpus *)
  helper_wq : wq_ptr;               (* static struct workqueue_struct * *)
  notifier_call : bool;             (* notif.notifier_call != NULL *)
  notif_registered : bool;          (* notif is on the state notifier chain *)
  work_pending : bool;              (* helper_work is queued on helper_wq *)
  state_suspended : bool;           (* extern bool state_suspended *)
  cpu_online_mask : gset nat;       (* cpu_online_mask *)
  klog : list event                 (* calls made so far *)
}.

(** What the kernel around the driver decides. *)
Record platform := Platform {
  NR_CPUS : N;                                  (* CONFIG_NR_CPUS *)
  nr_cpu_ids : nat;                             (* number of cpu ids *)
  cpu_possible_mask : gset nat;
  sscanf_u : string → option N;                 (* sscanf(buf, "%u", &val) == 1 *)
  cpu_down_ok : gset nat → nat → bool;          (* cpu_down(cpu) == 0 *)
  cpu_up_ok : gset nat → nat → bool;            (* cpu_up(cpu) == 0 *)
  alloc_workqueue_ok : kernel → bool;           (* alloc_workqueue() != NULL *)
  state_register_client_ok : kernel → bool;     (* state_register_client() == 0 *)
  sysfs_create_group_ret : Z
}.

#[global] Instance message_eq_dec : EqDecision message.
Proof. solve_decision. Defined.

#[global] Instance event_eq_dec : EqDecision event.
Proof. solve_decision. Defined.

(** ** Field updates *)

Definition set_enabled (v : N) (k : kernel) : kernel :=
  Kernel (StateHelper v (max_cpus_online (helper k)) (debug (helper k)))
         (target_cpus k) (helper_wq k) (notifier_call k) (notif_registered k)
         (work_pending k) (state_suspended k) (cpu_online_mask k) (klog k).

Definition set_max_cpus_online (v : N) (k : kernel) : kernel :=
  Kernel (StateHelper (enabled (helper k)) v (debug (helper k)))
         (target_cpus k) (helper_wq k) (notifier_call k) (notif_registered k)
         (work_pending k) (state_suspended k) (cpu_online_mask k) (klog k).

Definition set_debug (v : N) (k : kernel) : kernel :=
  Kernel (StateHelper (enabled (helper k)) (max_cpus_online (helper k)) v)
         (target_cpus k) (helper_wq k) (notifier_call k) (notif_registered k)
         (work_pending k) (state_suspended k) (cpu_online_mask k) (klog k).

Definition set_target_cpus (v : N) (k : kernel) : kernel :=
  Kernel (helper k) v (helper_wq k) (notifier_call k) (notif_registered k)
         (work_pending k) (state_suspended k) (cpu_online_mask k) (klog k).

Definition set_helper_wq (v : wq_ptr) (k : kernel) : kernel :=
  Kernel (helper k) (target_cpus k) v (notifier_call k) (notif_registered k)
         (work_pending k) (state_suspended k) (cpu_online_mask k) (klog k).

Definition set_notifier_call (v : bool) (k : kernel) : kernel :=
  Kernel (helper k) (target_cpus k) (helper_wq k) v (notif_registered k)
         (work_pending k) (state_suspended k) (cpu_online_mask k) (klog k).

Definition set_notif_registered (v : bool) (k : kernel) : kernel :=
  Kernel (helper k) (target_cpus k) (helper_wq k) (notifier_call k) v
         (work_pending k) (state_suspended k) (cpu_online_mask k) (klog k).

Definition set_work_pending (v : bool) (k : kernel) : kernel :=
  Kernel (helper k) (target_cpus k) (helper_wq k) (notifier_call k)
         (notif_registered k) v (state_suspended k) (cpu_online_mask k) (klog k).

Definition set_state_suspended (v : bool) (k : kernel) : kernel :=
  Kernel (helper k) (target_cpus k) (helper_wq k) (notifier_call k)
         (notif_registered k) (work_pending k) v (cpu_online_mask k) (klog k).

Definition set_cpu_online_mask (v : gset nat) (k : kernel) : kernel :=
  Kernel (helper k) (target_cpus k) (helper_wq k) (notifier_call k)
         (notif_registered k) (work_pending k) (state_suspended k) v (klog k).

Definition emit (e : event) (k : kernel) : kernel :=
  Kernel (helper k) (target_cpus k) (helper_wq k) (notifier_call k)
         (notif_registered k) (work_pending k) (state_suspended k)
         (cpu_online_mask k) (klog k ++ [e]).

(** The hotplug requests among a list of events. *)
Definition is_request (e : event) : bool :=
  match e with CpuDown _ | CpuUp _ => true | _ => false end.

Definition requests (l : list event) : list event := filter is_request l.

(** What a computation appended to the log. *)
Definition emitted (k k' : kernel) : list event := drop (length (klog k)) (klog k').

(** ** The driver *)

Section Driver.
Context (P : platform).

(** [helper = { .enabled = HELPER_ENABLED, .max_cpus_online =
    DEFAULT_MAX_CPUS_ONLINE, .debug = DEBUG_MASK }] with
    [#define DEFAULT_MAX_CPUS_ONLINE NR_CPUS]. *)
Definition DEFAULT_MAX_CPUS_ONLINE : N := NR_CPUS P.

Definition helper_init : state_helper :=
  StateHelper HELPER_ENABLED DEFAULT_MAX_CPUS_ONLINE DEBUG_MASK.

(** The kernel as the module finds it when it is loaded: the statics are
    zero-initialised apart from [helper]. *)
Definition module_load (suspended : bool) (online : gset nat) : kernel :=
  Kernel helper_init 0 WqNull false false false suspended online [].

(** *** Kernel services *)

Definition pr_info (m : message) (k : kernel) : kernel := emit (PrInfo m) k.
Definition pr_err (m : message) (k : kernel) : kernel := emit (PrErr m) k.

(** [#define dprintk(msg...) do { if (helper.debug) pr_info(msg); } while (0)] *)
Definition dprintk (m : message) (k : kernel) : kernel :=
  if debug (helper k) =? 0 then k else pr_info m k.

(** [num_online_cpus()] is the weight of [cpu_online_mask]. *)
Definition num_online_cpus (k : kernel) : N := N.of_nat (size (cpu_online_mask k)).

Definition cpu_online (cpu : nat) (k : kernel) : bool :=
  bool_decide (cpu ∈ cpu_online_mask k).

Definition cpu_possible (cpu : nat) : bool :=
  bool_decide (cpu ∈ cpu_possible_mask P).

(** [cpu_down(cpu)]: the request is logged; the platform honours it or
    refuses it, and the driver ignores the return value. *)
Definition cpu_down (cpu : nat) (k : kernel) : kernel :=
  let k := emit (CpuDown cpu) k in
  if cpu_down_ok P (cpu_online_mask k) cpu
  then set_cpu_online_mask (cpu_online_mask k ∖ {[cpu]}) k
  else k.

(** [cpu_up(cpu)] fails with -EINVAL on a cpu that is not possible. *)
Definition cpu_up (cpu : nat) (k : kernel) : kernel :=
  let k := emit (CpuUp cpu) k in
  if cpu_possible cpu && cpu_up_ok P (cpu_online_mask k) cpu
  then set_cpu_online_mask (cpu_online_mask k ∪ {[cpu]}) k
  else k.

(** The ids a [for_each_cpu] loop walks through: [cpumask_next] steps
    through 0 .. nr_cpu_ids-1 in ascending order and the loop body runs
    for the ids whose bit is set in the mask when the walk reaches them. *)
Definition cpu_ids : list nat := seq 0 (nr_cpu_ids P).

(** *** state_helper_work *)

(** Lines 55-58: the target of a pass. *)
Definition compute_target (suspended : bool) (max_online : N) : N :=
  if suspended then DEFAULT_SUSP_CPUS else max_online.

(** Lines 61-69, [for_each_online_cpu(cpu)] over the remaining ids. *)
Fixpoint offline_loop (cpus : list nat) (k : kernel) : kernel :=
  match cpus with
  | [] => k
  | cpu :: rest =>
      if cpu_online cpu k then
        if (cpu =? 0)%nat then offline_loop rest k          (* continue *)
        else
          let k := dprintk (MsgSwitchOffline cpu) k in
          let k := cpu_down cpu k in
          if num_online_cpus k <=? target_cpus k then k     (* break *)
          else offline_loop rest k
      else offline_loop rest k
  end.

(** Lines 71-79, [for_each_possible_cpu(cpu)] over the remaining ids. *)
Fixpoint online_loop (cpus : list nat) (k : kernel) : kernel :=
  match cpus with
  | [] => k
  | cpu :: rest =>
      if cpu_possible cpu then
        if target_cpus k <=? num_online_cpus k then k       (* break *)
        else if negb (cpu_online cpu k) then
          let k := cpu_up cpu k in
          let k := dprintk (MsgSwitchOnline cpu) k in
          online_loop rest k
        else online_loop rest k
      else online_loop rest k
  end.

(** Lines 89-91, the per-cpu status lines. *)
Fixpoint status_loop (cpus : list nat) (k : kernel) : kernel :=
  match cpus with
  | [] => k
  | cpu :: rest =>
      if cpu_possible cpu
      then status_loop rest (pr_info (MsgCpuStatus cpu (cpu_online cpu k)) k)
      else status_loop rest k
  end.

(** Lines 86-92. *)
Definition report (k : kernel) : kernel :=
  if debug (helper k) =? 0 then k
  else status_loop cpu_ids (pr_info (MsgTargetRequested (target_cpus k)) k).

Definition state_helper_work (k : kernel) : kernel :=
  let k := set_target_cpus
             (compute_target (state_suspended k) (max_cpus_online (helper k))) k in
  if target_cpus k <? num_online_cpus k then
    report (offline_loop cpu_ids k)
  else if num_online_cpus k <? target_cpus k then
    report (online_loop cpu_ids k)
  else
    dprintk (MsgTargetAchieved (target_cpus k)) k.         (* return *)

(** *** Work queue and notifier *)

(** [queue_delayed_work(helper_wq, &helper_work, 0)]: with a zero delay
    the work is put on the queue at once; a work that is already pending
    is not queued a second time. *)
Definition reschedule_work (k : kernel) : kernel :=
  set_work_pending true (emit QueueDelayedWork k).

Definition state_notifier_callback (k : kernel) : Z * kernel :=
  if enabled (helper k) =? 0 then (NOTIFY_OK, k)
  else (NOTIFY_OK, reschedule_work k).

(** The worker of [helper_wq] takes the pending work and runs it. *)
Definition run_pending_work (k : kernel) : kernel :=
  if work_pending k then state_helper_work (set_work_pending false k) else k.

Definition state_helper_start (k : kernel) : kernel :=
  if alloc_workqueue_ok P k then
    let k := set_helper_wq WqLive (emit AllocWorkqueue k) in
    let k := set_notifier_call true k in
    if state_register_client_ok P k then
      let k := set_notif_registered true (emit StateRegisterClient k) in
      reschedule_work k
    else
      let k := pr_err MsgRegisterFailed (emit StateRegisterClient k) in
      let k := set_helper_wq WqDestroyed (emit DestroyWorkqueue k) in
      set_enabled 0 k
  else
    let k := set_helper_wq WqNull (emit AllocWorkqueue k) in
    let k := pr_err MsgAllocFailed k in
    set_enabled 0 k.

(** Lines 150-152, [for_each_possible_cpu(cpu) if (!cpu_online(cpu))
    cpu_up(cpu);]. *)
Fixpoint wake_loop (cpus : list nat) (k : kernel) : kernel :=
  match cpus with
  | [] => k
  | cpu :: rest =>
      if cpu_possible cpu then
        if negb (cpu_online cpu k) then wake_loop rest (cpu_up cpu k)
        else wake_loop rest k
      else wake_loop rest k
  end.

(** Lines 143-147: the notifier is taken off the chain, the queue is
    flushed (a pending pass runs to its end) and the work is cancelled. *)
Definition drain (k : kernel) : kernel :=
  let k := set_notif_registered false (emit StateUnregisterClient k) in
  let k := set_notifier_call false k in
  let k := run_pending_work (emit FlushWorkqueue k) in
  set_work_pending false (emit CancelDelayedWorkSync k).

Definition state_helper_stop (k : kernel) : kernel :=
  wake_loop cpu_ids (drain k).

(** *** sysfs *)

Definition store_enabled (buf : string) (count : N) (k : kernel) : Z * kernel :=
  match sscanf_u P buf with
  | None => (- EINVAL, k)%Z
  | Some val =>
      if (val <? 0) || (1 <? val) then (- EINVAL, k)%Z
      else if val =? enabled (helper k) then (Z.of_N count, k)
      else
        let k := set_enabled val k in
        (Z.of_N count,
         if enabled (helper k) =? 0 then state_helper_stop k
         else state_helper_start k)
  end.

Definition store_max_cpus_online (buf : string) (count : N) (k : kernel)
  : Z * kernel :=
  match sscanf_u P buf with
  | None => (- EINVAL, k)%Z
  | Some val =>
      if (val <? 1) || (NR_CPUS P <? val) then (- EINVAL, k)%Z
      else
        let k := set_max_cpus_online val k in
        (Z.of_N count,
         if enabled (helper k) =? 0 then k else reschedule_work k)
  end.

Definition store_debug_mask (buf : string) (count : N) (k : kernel) : Z * kernel :=
  match sscanf_u P buf with
  | None => (- EINVAL, k)%Z
  | Some val =>
      if (val <? 0) || (1 <? val) then (- EINVAL, k)%Z
      else if val =? debug (helper k) then (Z.of_N count, k)
      else (Z.of_N count, set_debug val k)
  end.

(** *** Platform driver *)

Definition state_helper_probe (k : kernel) : Z * kernel :=
  let k := emit SysfsCreateGroup k in
  (sysfs_create_group_ret P,
   if enabled (helper k) =? 0 then k else state_helper_start k).

Definition state_helper_remove (k : kernel) : Z * kernel :=
  (0%Z, if enabled (helper k) =? 0 then k else state_helper_stop k).

(** *** The module in its environment *)

(** What can happen to the module: a sysfs write, a state notification
    (the state subsystem sets [state_suspended] and walks its chain), the
    worker picking up the queued pass, probe and remove, and another
    subsystem changing which cpus are online. *)
Inductive op :=
  | OpStoreEnabled (buf : string) (count : N)
  | OpStoreMaxCpusOnline (buf : string) (count : N)
  | OpStoreDebugMask (buf : string) (count : N)
  | OpStateNotify (suspended : bool)
  | OpWorker
  | OpProbe
  | OpRemove
  | OpHotplug (online : gset nat).

Definition step (o : op) (k : kernel) : kernel :=
  match o with
  | OpStoreEnabled buf count => (store_enabled buf count k).2
  | OpStoreMaxCpusOnline buf count => (store_max_cpus_online buf count k).2
  | OpStoreDebugMask buf count => (store_debug_mask buf count k).2
  | OpStateNotify b =>
      let k := set_state_suspended b k in
      if notif_registered k then (state_notifier_callback k).2 else k
  | OpWorker => run_pending_work k
  | OpProbe => (state_helper_probe k).2
  | OpRemove => (state_helper_remove k).2
  | OpHotplug m => set_cpu_online_mask m k
  end.

Definition run (os : list op) (k : kernel) : kernel :=
  foldl (λ k o, step o k) k os.

End Driver.

(** ** Vocabulary for the statements *)

(** The cpus a pass may take offline, in the order it meets them: the
    online ones apart from cpu 0, by ascending id. *)
Definition offline_candidates (P : platform) (online : gset nat) : list nat :=
  filter (λ cpu, cpu ≠ 0%nat ∧ cpu ∈ online) (cpu_ids P).

(** The possible cpus that are not online, by ascending id. *)
Definition offline_possible (P : platform) (online : gset nat) : list nat :=
  filter (λ cpu, cpu ∈ cpu_possible_mask P ∧ cpu ∉ online) (cpu_ids P).

(** The online mask after the platform has answered requests to take
    [cpus] offline, one after the other. *)
Definition mask_after_down (P : platform) (cpus : list nat) (online : gset nat)
  : gset nat :=
  foldl (λ m cpu, if cpu_down_ok P m cpu then m ∖ {[cpu]} else m) online cpus.

(** A platform that honours every hotplug request. *)
Definition never_refuses (P : platform) : Prop :=
  (∀ m cpu, cpu_down_ok P m cpu = true) ∧ (∀ m cpu, cpu_up_ok P m cpu = true).

(** The cores of the platform are the [NR_CPUS] possible cpus, with ids
    below [nr_cpu_ids]. *)
Definition cores_populated (P : platform) : Prop :=
  (∀ cpu, cpu ∈ cpu_possible_mask P → (cpu < nr_cpu_ids P)%nat)
  ∧ N.of_nat (size (cpu_possible_mask P)) = NR_CPUS P.

(** ** Concrete platforms

    [quad] is a four-core platform that honours every request; [stubborn]
    is the same platform except that cpu 1 refuses to go offline.  Their
    [sscanf] reads the leading decimal digits of the buffer. *)

Definition digit_of (c : Ascii.ascii) : option N :=
  let n := Ascii.N_of_ascii c in
  if (48 <=? n) && (n <=? 57) then Some (n - 48) else None.

Fixpoint leading_digits (s : string) (acc : option N) : option N :=
  match s with
  | EmptyString => acc
  | String c rest =>
      match digit_of c with
      | Some d => leading_digits rest (Some (10 * default 0 acc + d))
      | None => acc
      end
  end.

Definition quad : platform :=
  Platform 4 4 (list_to_set (seq 0 4)) (λ buf, leading_digits buf None)
           (λ _ _, true) (λ _ _, true) (λ _, true) (λ _, true) 0.

Definition stubborn : platform :=
  Platform 4 4 (list_to_set (seq 0 4)) (λ buf, leading_digits buf None)
           (λ _ cpu, negb (cpu =? 1)%nat) (λ _ _, true) (λ _, true) (λ _, true) 0.

(** All four cores online, module just loaded. *)
Definition quad_boot : kernel := module_load quad false (list_to_set (seq 0 4)).

(** The governor switched off by hand while the device is suspended with
    two cores online. *)
Definition quad_disabled_suspended : kernel :=
  Kernel (StateHelper 0 4 1) 0 WqNull false false false true {[0%nat; 1%nat]} [].

(** The governor running, four cores online, device active. *)
Definition quad_enabled : kernel :=
  Kernel (StateHelper 1 4 1) 4 WqLive true true false false
         (list_to_set (seq 0 4)) [].

(** [quad] short of memory: the work queue cannot be allocated. *)
Definition quad_no_memory : platform :=
  Platform 4 4 (list_to_set (seq 0 4)) (λ buf, leading_digits buf None)
           (λ _ _, true) (λ _ _, true) (λ _, false) (λ _, true) 0.

(** The governor running, four cores online, device suspended: the state
    a pass finds after a suspend notification. *)
Definition quad_suspended : kernel :=
  Kernel (StateHelper 1 4 1) 4 WqLive true true false true
         (list_to_set (seq 0 4)) [].

(** The governor running with only cpu 0 online; debug off. *)
Definition quad_parked : kernel :=
  Kernel (StateHelper 1 4 0) 1 WqLive true true false true {[0%nat]} [].

(** ** The show side of sysfs, and more vocabulary *)

(** [sprintf(buf, "%u\n", v)]: the decimal digits of [v] and a newline; the
    return value is the number of characters written. *)
Definition sprintf_u (v : N) : Z * string :=
  let s := pretty v +:+ String (Ascii.ascii_of_nat 10) EmptyString in
  (Z.of_nat (String.length s), s).

Definition show_enabled (k : kernel) : Z * string :=
  sprintf_u (enabled (helper k)).

Definition show_max_cpus_online (k : kernel) : Z * string :=
  sprintf_u (max_cpus_online (helper k)).

Definition show_debug_mask (k : kernel) : Z * string :=
  sprintf_u (debug (helper k)).

(** The online mask after the platform has answered requests to bring
    [cpus] online, one after the other. *)
Definition mask_after_up (P : platform) (cpus : list nat) (online : gset nat)
  : gset nat :=
  foldl (λ m cpu, if cpu_possible P cpu && cpu_up_ok P m cpu
                  then m ∪ {[cpu]} else m) online cpus.

(** The operations that occur while the driver is bound: everything but
    probe and remove. *)
Definition runtime_op (o : op) : Prop :=
  match o with OpProbe | OpRemove => False | _ => True end.

(** The three settings within the ranges their setters enforce. *)
Definition config_in_range (P : platform) (k : kernel) : Prop :=
  enabled (helper k) ≤ 1
  ∧ 1 ≤ max_cpus_online (helper k) ≤ NR_CPUS P
  ∧ debug (helper k) ≤ 1.

(** How the enabled flag and the resources of the governor go together. *)
Definition governor_inv (P : platform) (k : kernel) : Prop :=
  config_in_range P k
  ∧ (enabled (helper k) = 0 → notif_registered k = false ∧ work_pending k = false)
  ∧ (enabled (helper k) ≠ 0 →
       helper_wq k = WqLive ∧ notif_registered k = true ∧ notifier_call k = true).

(** The calls a pass may make: hotplug requests for sensible cpus, and
    printk. *)
Definition pass_event (P : platform) (e : event) : Prop :=
  match e with
  | CpuDown cpu => cpu ≠ 0%nat ∧ (cpu < nr_cpu_ids P)%nat
  | CpuUp cpu => cpu ∈ cpu_possible_mask P ∧ (cpu < nr_cpu_ids P)%nat
  | PrInfo _ => True
  | _ => False
  end.

(** The calls [state_helper_stop] may make. *)
Definition stop_event (P : platform) (e : event) : Prop :=
  pass_event P e ∨ e = StateUnregisterClient ∨ e = FlushWorkqueue
  ∨ e = CancelDelayedWorkSync.

(** Two kernels that differ at most in the debug flag and in what has been
    printed. *)
Definition debug_blind (k1 k2 : kernel) : Prop :=
  enabled (helper k1) = enabled (helper k2)
  ∧ max_cpus_online (helper k1) = max_cpus_online (helper k2)
  ∧ target_cpus k1 = target_cpus k2
  ∧ helper_wq k1 = helper_wq k2
  ∧ notifier_call k1 = notifier_call k2
  ∧ notif_registered k1 = notif_registered k2
  ∧ work_pending k1 = work_pending k2
  ∧ state_suspended k1 = state_suspended k2
  ∧ cpu_online_mask k1 = cpu_online_mask k2
  ∧ requests (klog k1) = requests (klog k2).

(** A platform on which the work queue can always be allocated and the
    notifier always registered. *)
Definition always_starts (P : platform) : Prop :=
  (∀ k, alloc_workqueue_ok P k = true) ∧ (∀ k, state_register_client_ok P k = true).

(** ** Bookkeeping: logs and frames *)

(** [logs Q k k']: the log of [k'] extends the log of [k] by events that
    all satisfy [Q]. *)
Definition logs (Q : event → Prop) (k k' : kernel) : Prop :=
  ∃ l, klog k' = klog k ++ l ∧ Forall Q l.

(** [frame k k']: [k'] differs from [k] at most in the online mask and the
    log. *)
Definition frame (k k' : kernel) : Prop :=
  helper k' = helper k ∧ target_cpus k' = target_cpus k ∧
  helper_wq k' = helper_wq k ∧ notifier_call k' = notifier_call k ∧
  notif_registered k' = notif_registered k ∧
  work_pending k' = work_pending k ∧ state_suspended k' = state_suspended k.

(** [benign Q]: [Q] admits every event except, possibly, a request to take
    cpu 0 offline. *)
Definition benign (Q : event → Prop) : Prop :=
  (∀ cpu, cpu ≠ 0%nat → Q (CpuDown cpu)) ∧ (∀ e, (∀ cpu, e ≠ CpuDown cpu) → Q e).

Lemma logs_refl Q k : logs Q k k.
Proof. exists []. by rewrite app_nil_r. Qed.

Lemma logs_trans Q k1 k2 k3 : logs Q k1 k2 → logs Q k2 k3 → logs Q k1 k3.
Proof.
  intros (l1 & H1 & F1) (l2 & H2 & F2). exists (l1 ++ l2).
  split; [by rewrite H2, H1, app_assoc | by apply Forall_app].
Qed.

Lemma logs_mono (Q Q' : event → Prop) k k' :
  (∀ e, Q e → Q' e) → logs Q k k' → logs Q' k k'.
Proof. intros HQ (l & H & F). exists l. split; [done | by eapply Forall_impl]. Qed.

Lemma logs_emit (Q : event → Prop) e k : Q e → logs Q k (emit e k).
Proof. intros He. exists [e]. split; [done | by constructor]. Qed.

Lemma logs_same_log Q k k' : klog k' = klog k → logs Q k k'.
Proof. intros H. exists []. by rewrite H, app_nil_r. Qed.

Lemma logs_eq_l Q k0 k k' : klog k0 = klog k → logs Q k0 k' → logs Q k k'.
Proof. intros H (l & Hl & F). exists l. by rewrite <- H. Qed.

Lemma emitted_app k k' l : klog k' = klog k ++ l → emitted k k' = l.
Proof. intros H. unfold emitted. by rewrite H, drop_app_length. Qed.

Lemma emitted_same k : emitted k k = [].
Proof. apply emitted_app. by rewrite app_nil_r. Qed.

Lemma logs_emitted Q k k' : logs Q k k' → Forall Q (emitted k k').
Proof. intros (l & H & F). by rewrite (emitted_app _ _ _ H). Qed.

Lemma logs_klog Q k k' : logs Q k k' → klog k' = klog k ++ emitted k k'.
Proof. intros (l & H & F). by rewrite (emitted_app _ _ _ H). Qed.

Lemma frame_refl k : frame k k.
Proof. by repeat split. Qed.

Lemma frame_trans k1 k2 k3 : frame k1 k2 → frame k2 k3 → frame k1 k3.
Proof. unfold frame. intros H1 H2. destruct_and!. repeat split; congruence. Qed.

Lemma set_target_cpus_id k : set_target_cpus (target_cpus k) k = k.
Proof. by destruct k. Qed.

Create HintDb klog.

#[global] Hint Resolve logs_refl logs_emit frame_refl : klog.

Section DriverFacts.
Context (P : platform).

(** *** Kernel services *)

Lemma dprintk_logs (Q : event → Prop) m k :
  Q (PrInfo m) → logs Q k (dprintk m k).
Proof. intros. unfold dprintk, pr_info. case_match; auto with klog. Qed.

Lemma dprintk_frame m k : frame k (dprintk m k).
Proof. unfold dprintk. by case_match. Qed.

Lemma dprintk_mask m k : cpu_online_mask (dprintk m k) = cpu_online_mask k.
Proof. unfold dprintk. by case_match. Qed.

Lemma cpu_down_logs (Q : event → Prop) cpu k :
  Q (CpuDown cpu) → logs Q k (cpu_down P cpu k).
Proof.
  intros. unfold cpu_down. cbn. case_match; exists [CpuDown cpu]; split; auto.
Qed.

Lemma cpu_down_frame cpu k : frame k (cpu_down P cpu k).
Proof. unfold cpu_down. cbn. by case_match. Qed.

Lemma cpu_down_mask cpu k :
  cpu_online_mask (cpu_down P cpu k) =
  if cpu_down_ok P (cpu_online_mask k) cpu
  then cpu_online_mask k ∖ {[cpu]} else cpu_online_mask k.
Proof. unfold cpu_down. cbn. by case_match. Qed.

Lemma cpu_up_logs (Q : event → Prop) cpu k :
  Q (CpuUp cpu) → logs Q k (cpu_up P cpu k).
Proof.
  intros. unfold cpu_up. cbn. case_match; exists [CpuUp cpu]; split; auto.
Qed.

Lemma cpu_up_klog cpu k : klog (cpu_up P cpu k) = klog k ++ [CpuUp cpu].
Proof. unfold cpu_up. cbn. by case_match. Qed.

Lemma cpu_down_klog cpu k : klog (cpu_down P cpu k) = klog k ++ [CpuDown cpu].
Proof. unfold cpu_down. cbn. by case_match. Qed.

Lemma cpu_up_frame cpu k : frame k (cpu_up P cpu k).
Proof. unfold cpu_up. cbn. by case_match. Qed.

Lemma cpu_up_mask cpu k :
  cpu_online_mask (cpu_up P cpu k) =
  if cpu_possible P cpu && cpu_up_ok P (cpu_online_mask k) cpu
  then cpu_online_mask k ∪ {[cpu]} else cpu_online_mask k.
Proof. unfold cpu_up. cbn. by case_match. Qed.

(** *** The loops *)

Lemma offline_loop_logs Q cpus k :
  benign Q → logs Q k (offline_loop P cpus k).
Proof.
  intros [Hd Ho]. revert k. induction cpus as [|cpu rest IH]; intros k; cbn.
  { apply logs_refl. }
  destruct (cpu_online cpu k); [|apply IH].
  destruct (Nat.eqb_spec cpu 0) as [->|Hne]; [apply IH|].
  assert (logs Q k (cpu_down P cpu (dprintk (MsgSwitchOffline cpu) k))) as Hstep.
  { eapply logs_trans; [apply dprintk_logs, Ho; done | by apply cpu_down_logs, Hd]. }
  case_match; [done | by eapply logs_trans].
Qed.

Lemma offline_loop_frame cpus k : frame k (offline_loop P cpus k).
Proof.
  revert k. induction cpus as [|cpu rest IH]; intros k; cbn; [apply frame_refl|].
  destruct (cpu_online cpu k); [|apply IH].
  destruct (cpu =? 0)%nat; [apply IH|].
  assert (frame k (cpu_down P cpu (dprintk (MsgSwitchOffline cpu) k))) as Hstep.
  { eapply frame_trans; [apply dprintk_frame | apply cpu_down_frame]. }
  case_match; [done | by eapply frame_trans].
Qed.

Lemma online_loop_logs Q cpus k :
  benign Q → logs Q k (online_loop P cpus k).
Proof.
  intros [Hd Ho]. revert k. induction cpus as [|cpu rest IH]; intros k; cbn.
  { apply logs_refl. }
  destruct (cpu_possible P cpu); [|apply IH].
  case_match; [apply logs_refl|].
  destruct (cpu_online cpu k); cbn; [apply IH|].
  eapply logs_trans; [|apply IH].
  eapply logs_trans; [by apply cpu_up_logs, Ho | by apply dprintk_logs, Ho].
Qed.

Lemma online_loop_frame cpus k : frame k (online_loop P cpus k).
Proof.
  revert k. induction cpus as [|cpu rest IH]; intros k; cbn; [apply frame_refl|].
  destruct (cpu_possible P cpu); [|apply IH].
  case_match; [apply frame_refl|].
  destruct (cpu_online cpu k); cbn; [apply IH|].
  eapply frame_trans; [|apply IH].
  eapply frame_trans; [apply cpu_up_frame | apply dprintk_frame].
Qed.

(** The status lines are printk calls only; nothing else changes. *)
Lemma status_loop_spec cpus k :
  ∃ ms, status_loop P cpus k =
        Kernel (helper k) (target_cpus k) (helper_wq k) (notifier_call k)
               (notif_registered k) (work_pending k) (state_suspended k)
               (cpu_online_mask k) (klog k ++ (PrInfo <$> ms)).
Proof.
  revert k. induction cpus as [|cpu rest IH]; intros k; cbn.
  { exists []. cbn. rewrite app_nil_r. by destruct k. }
  destruct (cpu_possible P cpu); [|apply IH].
  destruct (IH (pr_info (MsgCpuStatus cpu (cpu_online cpu k)) k)) as [ms ->].
  exists (MsgCpuStatus cpu (cpu_online cpu k) :: ms). cbn.
  by rewrite <- app_assoc.
Qed.

Lemma report_spec k :
  ∃ ms, report P k =
        Kernel (helper k) (target_cpus k) (helper_wq k) (notifier_call k)
               (notif_registered k) (work_pending k) (state_suspended k)
               (cpu_online_mask k) (klog k ++ (PrInfo <$> ms)).
Proof.
  unfold report. case_match.
  { exists []. cbn. rewrite app_nil_r. by destruct k. }
  destruct (status_loop_spec (cpu_ids P)
              (pr_info (MsgTargetRequested (target_cpus k)) k)) as [ms ->].
  exists (MsgTargetRequested (target_cpus k) :: ms). cbn. by rewrite <- app_assoc.
Qed.

Lemma report_frame k : frame k (report P k).
Proof. destruct (report_spec k) as [ms ->]. by repeat split. Qed.

Lemma report_mask k : cpu_online_mask (report P k) = cpu_online_mask k.
Proof. by destruct (report_spec k) as [ms ->]. Qed.

Lemma report_logs Q k : benign Q → logs Q k (report P k).
Proof.
  intros [_ Ho]. destruct (report_spec k) as [ms ->]. exists (PrInfo <$> ms).
  split; [done|]. apply Forall_fmap, Forall_forall. intros m _. by apply Ho.
Qed.

Lemma requests_report k0 k :
  klog k = klog k0 ++ emitted k0 k →
  requests (emitted k0 (report P k)) = requests (emitted k0 k).
Proof.
  intros Hk. destruct (report_spec k) as [ms Hr].
  assert (klog (report P k) = klog k0 ++ (emitted k0 k ++ (PrInfo <$> ms))) as H.
  { rewrite Hr. cbn. by rewrite Hk at 1; rewrite <- app_assoc. }
  rewrite (emitted_app _ _ _ H). unfold requests. rewrite filter_app.
  replace (filter is_request (PrInfo <$> ms)) with (@nil event).
  { by rewrite app_nil_r. }
  clear. induction ms as [|m ms IH]; [done|].
  rewrite fmap_cons, filter_cons_False; [done | by intros []].
Qed.

Lemma wake_loop_logs cpus k :
  logs (λ e, ∃ cpu, e = CpuUp cpu) k (wake_loop P cpus k).
Proof.
  revert k. induction cpus as [|cpu rest IH]; intros k; cbn; [apply logs_refl|].
  destruct (cpu_possible P cpu); [|apply IH].
  destruct (cpu_online cpu k); cbn; [apply IH|].
  eapply logs_trans; [|apply IH]. apply cpu_up_logs. by exists cpu.
Qed.

Lemma wake_loop_frame cpus k : frame k (wake_loop P cpus k).
Proof.
  revert k. induction cpus as [|cpu rest IH]; intros k; cbn; [apply frame_refl|].
  destruct (cpu_possible P cpu); [|apply IH].
  destruct (cpu_online cpu k); cbn; [apply IH|].
  eapply frame_trans; [apply cpu_up_frame | apply IH].
Qed.

(** *** The pass, the work queue and the lifecycle *)

Lemma state_helper_work_logs Q k :
  benign Q → logs Q k (state_helper_work P k).
Proof.
  intros HQ. unfold state_helper_work.
  set (k1 := set_target_cpus _ k). apply (logs_eq_l _ k1); [done|].
  repeat case_match.
  - eapply logs_trans; [by apply offline_loop_logs | by apply report_logs].
  - eapply logs_trans; [by apply online_loop_logs | by apply report_logs].
  - apply dprintk_logs, HQ. done.
Qed.

Lemma state_helper_work_frame k :
  frame (set_target_cpus
           (compute_target (state_suspended k) (max_cpus_online (helper k))) k)
        (state_helper_work P k).
Proof.
  unfold state_helper_work. set (k1 := set_target_cpus _ k).
  repeat case_match.
  - eapply frame_trans; [apply offline_loop_frame | apply report_frame].
  - eapply frame_trans; [apply online_loop_frame | apply report_frame].
  - apply dprintk_frame.
Qed.

Lemma reschedule_work_logs Q k : benign Q → logs Q k (reschedule_work k).
Proof. intros [_ Ho]. exists [QueueDelayedWork]. split; [done|]. by repeat constructor; apply Ho. Qed.

Lemma state_notifier_callback_logs Q k :
  benign Q → logs Q k (state_notifier_callback k).2.
Proof.
  intros. unfold state_notifier_callback.
  case_match; [apply logs_refl | by apply reschedule_work_logs].
Qed.

Lemma run_pending_work_frame_registered k :
  notif_registered
    (run_pending_work P
       (emit FlushWorkqueue
          (set_notifier_call false
             (set_notif_registered false (emit StateUnregisterClient k))))) = false.
Proof.
  unfold run_pending_work. case_match; [|done].
  match goal with |- notif_registered (state_helper_work P ?k0) = _ =>
    destruct (state_helper_work_frame k0) as (_ & _ & _ & _ & -> & _) end.
  done.
Qed.

Lemma run_pending_work_logs Q k : benign Q → logs Q k (run_pending_work P k).
Proof.
  intros. unfold run_pending_work. case_match; [|apply logs_refl].
  eapply (logs_eq_l _ (set_work_pending false k)); [done|].
  by apply state_helper_work_logs.
Qed.

Lemma state_helper_start_logs Q k : benign Q → logs Q k (state_helper_start P k).
Proof.
  intros [_ Ho]. unfold state_helper_start. repeat case_match.
  - exists [AllocWorkqueue; StateRegisterClient; QueueDelayedWork].
    split; [cbn; by rewrite <- !app_assoc|]. by repeat constructor; apply Ho.
  - exists [AllocWorkqueue; StateRegisterClient; PrErr MsgRegisterFailed;
            DestroyWorkqueue].
    split; [cbn; by rewrite <- !app_assoc|]. by repeat constructor; apply Ho.
  - exists [AllocWorkqueue; PrErr MsgAllocFailed].
    split; [cbn; by rewrite <- !app_assoc|]. by repeat constructor; apply Ho.
Qed.

Lemma drain_logs Q k : benign Q → logs Q k (drain P k).
Proof.
  intros HQ. pose proof HQ as [_ Ho]. unfold drain.
  set (k1 := set_notifier_call false _).
  assert (logs Q k k1) as H1.
  { exists [StateUnregisterClient]. split; [done|]. by repeat constructor; apply Ho. }
  set (k2 := run_pending_work P (emit FlushWorkqueue k1)).
  assert (logs Q k1 k2) as H2.
  { eapply logs_trans; [|by apply run_pending_work_logs]. by apply logs_emit, Ho. }
  eapply logs_trans; [exact H1|]. eapply logs_trans; [exact H2|].
  exists [CancelDelayedWorkSync]. split; [done|]. by repeat constructor; apply Ho.
Qed.

Lemma state_helper_stop_logs Q k : benign Q → logs Q k (state_helper_stop P k).
Proof.
  intros HQ. unfold state_helper_stop.
  eapply logs_trans; [by apply drain_logs|].
  eapply logs_mono; [|apply wake_loop_logs].
  intros e [cpu ->]. by apply HQ.
Qed.

Lemma step_logs Q o k : benign Q → logs Q k (step P o k).
Proof.
  intros HQ. pose proof HQ as [_ Ho].
  destruct o as [buf count|buf count|buf count|b| | | |m]; cbn.
  - unfold store_enabled. repeat case_match; cbn; try apply logs_refl.
    + eapply (logs_eq_l _ (set_enabled _ k)); [done|]. by apply state_helper_stop_logs.
    + eapply (logs_eq_l _ (set_enabled _ k)); [done|]. by apply state_helper_start_logs.
  - unfold store_max_cpus_online. repeat case_match; cbn; try apply logs_refl.
    + by apply logs_same_log.
    + eapply (logs_eq_l _ (set_max_cpus_online _ k)); [done|].
      by apply reschedule_work_logs.
  - unfold store_debug_mask. repeat case_match; cbn; try apply logs_refl.
    by apply logs_same_log.
  - case_match.
    + eapply (logs_eq_l _ (set_state_suspended b k)); [done|].
      by apply state_notifier_callback_logs.
    + by apply logs_same_log.
  - by apply run_pending_work_logs.
  - eapply logs_trans; [apply (logs_emit _ SysfsCreateGroup), Ho; done|].
    case_match; [apply logs_refl | by apply state_helper_start_logs].
  - case_match; [apply logs_refl | by apply state_helper_stop_logs].
  - by apply logs_same_log.
Qed.

Lemma run_logs Q os k : benign Q → logs Q k (run P os k).
Proof.
  intros HQ. revert k. induction os as [|o os IH]; intros k; cbn.
  { apply logs_refl. }
  eapply logs_trans; [by apply step_logs | apply IH].
Qed.

End DriverFacts.

(** ** The properties of the driver *)

Section Properties.
Context (P : platform).

(** *** Core 0 *)

Lemma not_down0_benign : benign (λ e, e ≠ CpuDown 0).
Proof. split; [intros cpu Hne [= ->]; done | intros e He; apply He]. Qed.

Lemma forall_not_elem (e : event) (l : list event) : Forall (λ x, x ≠ e) l → e ∉ l.
Proof. rewrite Forall_forall. intros H Hin. by apply (H e). Qed.

(** C2: whatever the configuration, the suspend flag and the set of online
    cores, no operation of the module and no sequence of operations asks
    for cpu 0 to be taken offline: the calls a run appends to the log hold
    no [CpuDown 0], the offline loop of a pass never emits that request,
    and the wake-up loop of [state_helper_stop] emits nothing but requests
    to bring a cpu online. *)
Theorem core0_never_requested_offline (os : list op) (o : op) (cpus : list nat)
    (k : kernel) :
  klog (run P os k) = klog k ++ emitted k (run P os k)
  ∧ (CpuDown 0 ∉ emitted k (run P os k))
  ∧ (CpuDown 0 ∉ emitted k (step P o k))
  ∧ (CpuDown 0 ∉ emitted k (offline_loop P cpus k))
  ∧ (CpuDown 0 ∉ emitted k (state_helper_work P k))
  ∧ (CpuDown 0 ∉ emitted k (state_helper_stop P k))
  ∧ Forall (λ e, ∃ cpu, e = CpuUp cpu) (emitted (drain P k) (state_helper_stop P k)).
Proof.
  pose proof not_down0_benign as HQ.
  split_and!.
  - eapply logs_klog, run_logs, HQ.
  - eapply forall_not_elem, logs_emitted, run_logs, HQ.
  - eapply forall_not_elem, logs_emitted, step_logs, HQ.
  - eapply forall_not_elem, logs_emitted, offline_loop_logs, HQ.
  - eapply forall_not_elem, logs_emitted, state_helper_work_logs, HQ.
  - eapply forall_not_elem, logs_emitted, state_helper_stop_logs, HQ.
  - apply logs_emitted, wake_loop_logs.
Qed.

(** Since the module never asks for it to go offline, cpu 0 stays online
    through every operation of the module, whatever the platform answers;
    only another subsystem can take it down. *)

Lemma offline_loop_keeps_cpu0 cpus k :
  0%nat ∈ cpu_online_mask k → 0%nat ∈ cpu_online_mask (offline_loop P cpus k).
Proof.
  revert k. induction cpus as [|cpu rest IH]; intros k H0; cbn [offline_loop]; [done|].
  destruct (cpu_online cpu k); [|by apply IH].
  destruct (Nat.eqb_spec cpu 0) as [->|Hne]; [by apply IH|].
  assert (0%nat ∈ cpu_online_mask
            (cpu_down P cpu (dprintk (MsgSwitchOffline cpu) k))) as H1.
  { rewrite cpu_down_mask, dprintk_mask. destruct (cpu_down_ok _ _ _); set_solver. }
  case_match; [done | by apply IH].
Qed.

Lemma online_loop_mono cpus k :
  cpu_online_mask k ⊆ cpu_online_mask (online_loop P cpus k).
Proof.
  revert k. induction cpus as [|cpu rest IH]; intros k; cbn [online_loop]; [done|].
  destruct (cpu_possible P cpu) eqn:Hp; [|apply IH].
  case_match; [done|].
  destruct (cpu_online cpu k); cbn [negb]; [apply IH|].
  etrans; [|apply IH]. rewrite dprintk_mask, cpu_up_mask.
  destruct (_ && _); set_solver.
Qed.

Lemma wake_loop_mono cpus k :
  cpu_online_mask k ⊆ cpu_online_mask (wake_loop P cpus k).
Proof.
  revert k. induction cpus as [|cpu rest IH]; intros k; cbn [wake_loop]; [done|].
  destruct (cpu_possible P cpu) eqn:Hp; [|apply IH].
  destruct (cpu_online cpu k); cbn [negb]; [apply IH|].
  etrans; [|apply IH]. rewrite cpu_up_mask. destruct (_ && _); set_solver.
Qed.

Lemma state_helper_work_keeps_cpu0 k :
  0%nat ∈ cpu_online_mask k → 0%nat ∈ cpu_online_mask (state_helper_work P k).
Proof.
  intros H0. unfold state_helper_work. set (k0 := set_target_cpus _ k).
  repeat case_match.
  - rewrite report_mask. by apply offline_loop_keeps_cpu0.
  - rewrite report_mask. by apply online_loop_mono.
  - by rewrite dprintk_mask.
Qed.

Lemma run_pending_work_keeps_cpu0 k :
  0%nat ∈ cpu_online_mask k → 0%nat ∈ cpu_online_mask (run_pending_work P k).
Proof.
  intros H0. unfold run_pending_work. case_match; [|done].
  by apply state_helper_work_keeps_cpu0.
Qed.

Lemma state_helper_stop_keeps_cpu0 k :
  0%nat ∈ cpu_online_mask k → 0%nat ∈ cpu_online_mask (state_helper_stop P k).
Proof.
  intros H0. unfold state_helper_stop. apply wake_loop_mono.
  unfold drain. cbn. by apply run_pending_work_keeps_cpu0.
Qed.

Lemma state_helper_start_mask k :
  cpu_online_mask (state_helper_start P k) = cpu_online_mask k.
Proof. unfold state_helper_start. by repeat case_match. Qed.

Lemma step_keeps_cpu0 o k :
  (∀ m, o ≠ OpHotplug m) →
  0%nat ∈ cpu_online_mask k → 0%nat ∈ cpu_online_mask (step P o k).
Proof.
  intros Hmod H0. destruct o as [buf count|buf count|buf count|b| | | |m]; cbn.
  - unfold store_enabled. repeat case_match; cbn; try done.
    + by apply state_helper_stop_keeps_cpu0.
    + by rewrite state_helper_start_mask.
  - unfold store_max_cpus_online. by repeat case_match.
  - unfold store_debug_mask. by repeat case_match.
  - unfold state_notifier_callback. by repeat case_match.
  - by apply run_pending_work_keeps_cpu0.
  - case_match; [done | by rewrite state_helper_start_mask].
  - case_match; [done | by apply state_helper_stop_keeps_cpu0].
  - by destruct (Hmod m).
Qed.

(** *** The target *)

(** C5: the target is a function of the suspend flag and the configured
    maximum alone: 1 when suspended, the maximum otherwise; a pass stores
    exactly that value in [target_cpus]. *)
Theorem compute_target_spec (max_online : N) (k : kernel) :
  compute_target true max_online = 1
  ∧ compute_target false max_online = max_online
  ∧ target_cpus (state_helper_work P k) =
    compute_target (state_suspended k) (max_cpus_online (helper k)).
Proof.
  repeat split. destruct (state_helper_work_frame P k) as (_ & -> & _). done.
Qed.

(** *** Defaults *)

(** C9 (amended): at module load the configuration holds the compiled-in
    defaults, which are: governor disabled ([HELPER_ENABLED] is 0), maximum
    equal to [NR_CPUS], debug on.  Being disabled, the probe starts
    nothing: it creates the sysfs group and returns. *)
Theorem module_load_defaults (suspended : bool) (online : gset nat) :
  let k := module_load P suspended online in
  enabled (helper k) = 0
  ∧ max_cpus_online (helper k) = NR_CPUS P
  ∧ debug (helper k) = 1
  ∧ emitted k (state_helper_probe P k).2 = [SysfsCreateGroup]
  ∧ work_pending (state_helper_probe P k).2 = false.
Proof. done. Qed.

(** *** sysfs writes *)

(** C10: a write to [enabled] of the value it already holds returns
    [count] and leaves the whole kernel state, log included, as it was:
    neither [state_helper_start] nor [state_helper_stop] runs. *)
Theorem store_enabled_same_value (buf : string) (count : N) (k : kernel) (val : N) :
  sscanf_u P buf = Some val →
  val ≤ 1 →
  val = enabled (helper k) →
  store_enabled P buf count k = (Z.of_N count, k)
  ∧ emitted k (store_enabled P buf count k).2 = [].
Proof.
  intros Hscan Hle Heq. unfold store_enabled. rewrite Hscan.
  destruct (N.ltb_spec val 0) as [?|_]; [lia|].
  destruct (N.ltb_spec 1 val) as [?|_]; [lia|]. cbn.
  destruct (N.eqb_spec val (enabled (helper k))) as [_|?]; [|done].
  split; [done | apply emitted_same].
Qed.

(** C7: a write to [max_cpus_online] returns [count] exactly when the
    buffer scans as a number between 1 and [NR_CPUS]; any other write
    returns -EINVAL and leaves the state untouched; a valid write stores
    the number and queues the pass exactly when the governor is enabled. *)
Theorem store_max_cpus_online_spec (buf : string) (count : N) (k : kernel) :
  let r := store_max_cpus_online P buf count k in
  let valid := ∃ val, sscanf_u P buf = Some val ∧ 1 ≤ val ≤ NR_CPUS P in
  (r.1 = Z.of_N count ↔ valid)
  ∧ (¬ valid → r = ((- EINVAL)%Z, k))
  ∧ (∀ val, sscanf_u P buf = Some val → 1 ≤ val ≤ NR_CPUS P →
       r.1 = Z.of_N count
       ∧ max_cpus_online (helper r.2) = val
       ∧ (enabled (helper k) = 0 → r.2 = set_max_cpus_online val k)
       ∧ (enabled (helper k) ≠ 0 →
            r.2 = reschedule_work (set_max_cpus_online val k)
            ∧ work_pending r.2 = true))
  ∧ (QueueDelayedWork ∈ emitted k r.2 ↔ valid ∧ enabled (helper k) ≠ 0).
Proof.
  cbn zeta. unfold store_max_cpus_online.
  destruct (sscanf_u P buf) as [val|] eqn:Hscan.
  2:{ assert (¬ ∃ val : N, None = Some val ∧ 1 ≤ val ≤ NR_CPUS P) as Hno
        by (intros (? & ? & ?); done).
      split_and!.
      - cbn. split; [unfold EINVAL; lia | done].
      - done.
      - done.
      - cbn. rewrite emitted_same. split; [by intros ?%elem_of_nil | tauto]. }
  destruct (N.ltb_spec val 1) as [Hlo|Hlo]; cbn.
  { assert (¬ ∃ v : N, Some val = Some v ∧ 1 ≤ v ≤ NR_CPUS P) as Hno
      by (intros (? & [= <-] & ?); lia).
    split_and!.
    - split; [unfold EINVAL; lia | done].
    - done.
    - intros v [= <-] ?. lia.
    - rewrite emitted_same. split; [by intros ?%elem_of_nil | tauto]. }
  destruct (N.ltb_spec (NR_CPUS P) val) as [Hhi|Hhi]; cbn.
  { assert (¬ ∃ v : N, Some val = Some v ∧ 1 ≤ v ≤ NR_CPUS P) as Hno
      by (intros (? & [= <-] & ?); lia).
    split_and!.
    - split; [unfold EINVAL; lia | done].
    - done.
    - intros v [= <-] ?. lia.
    - rewrite emitted_same. split; [by intros ?%elem_of_nil | tauto]. }
  assert (∃ v : N, Some val = Some v ∧ 1 ≤ v ≤ NR_CPUS P) as Hyes
    by (exists val; done).
  split_and!.
  - done.
  - done.
  - intros v [= <-] _. destruct (N.eqb_spec (enabled (helper k)) 0); done.
  - destruct (N.eqb_spec (enabled (helper k)) 0) as [Hz|Hnz].
    + rewrite (emitted_app k (set_max_cpus_online val k) [])
        by (cbn; by rewrite app_nil_r).
      split; [by intros ?%elem_of_nil | tauto].
    + rewrite (emitted_app k _ [QueueDelayedWork]) by done.
      split; [done | intros _; apply list_elem_of_singleton; done].
Qed.

(** *** The offline sweep *)

Lemma filter_agree (Q1 Q2 : nat → Prop) `{!∀ x, Decision (Q1 x)}
    `{!∀ x, Decision (Q2 x)} (l : list nat) :
  (∀ x, x ∈ l → Q1 x ↔ Q2 x) → filter Q1 l = filter Q2 l.
Proof.
  induction l as [|x l IH]; intros Hagree; [done|].
  rewrite !filter_cons. rewrite IH by (intros; apply Hagree; by right).
  destruct (decide (Q1 x)) as [H1|H1], (decide (Q2 x)) as [H2|H2]; try done;
    exfalso; pose proof (Hagree x ltac:(by left)); tauto.
Qed.

Lemma seq_strongly_sorted (a n : nat) : StronglySorted lt (seq a n).
Proof.
  revert a. induction n as [|n IH]; intros a; cbn; constructor; [apply IH|].
  apply Forall_forall. intros x Hx%elem_of_seq. lia.
Qed.

Lemma filter_strongly_sorted (Q : nat → Prop) `{!∀ x, Decision (Q x)} (l : list nat) :
  StronglySorted lt l → StronglySorted lt (filter Q l).
Proof.
  induction 1 as [|a l Hs IH Hall]; [constructor|].
  rewrite filter_cons. destruct (decide (Q a)); [|done].
  constructor; [done|]. apply Forall_forall. intros x [_ Hx]%list_elem_of_filter.
  rewrite Forall_forall in Hall. by apply Hall.
Qed.

Lemma offline_step_spec cpu k :
  let k1 := cpu_down P cpu (dprintk (MsgSwitchOffline cpu) k) in
  (∃ l, klog k1 = klog k ++ l ∧ requests l = [CpuDown cpu])
  ∧ cpu_online_mask k1 = mask_after_down P [cpu] (cpu_online_mask k)
  ∧ target_cpus k1 = target_cpus k.
Proof.
  cbn zeta. split_and!.
  - rewrite cpu_down_klog. unfold dprintk. case_match.
    + by exists [CpuDown cpu].
    + exists [PrInfo (MsgSwitchOffline cpu); CpuDown cpu]. cbn.
      by rewrite <- app_assoc.
  - by rewrite cpu_down_mask, dprintk_mask.
  - destruct (cpu_down_frame P cpu (dprintk (MsgSwitchOffline cpu) k)) as (_ & -> & _).
    by destruct (dprintk_frame (MsgSwitchOffline cpu) k) as (_ & -> & _).
Qed.

Lemma offline_loop_spec cpus k :
  NoDup cpus →
  target_cpus k < num_online_cpus k →
  let online := cpu_online_mask k in
  let cands := filter (λ cpu, cpu ≠ 0%nat ∧ cpu ∈ online) cpus in
  ∃ req l,
    klog (offline_loop P cpus k) = klog k ++ l
    ∧ requests l = CpuDown <$> req
    ∧ req `prefix_of` cands
    ∧ cpu_online_mask (offline_loop P cpus k) = mask_after_down P req online
    ∧ (∀ n, (n < length req)%nat →
         target_cpus k < N.of_nat (size (mask_after_down P (take n req) online)))
    ∧ (req = cands ∨
       N.of_nat (size (mask_after_down P req online)) ≤ target_cpus k).
Proof.
  revert k. induction cpus as [|cpu rest IH]; intros k Hnd Hlt; cbn zeta.
  { exists [], []. cbn. rewrite app_nil_r.
    split_and!; [done | done | done | done | intros; lia | by left]. }
  apply NoDup_cons in Hnd as [Hfresh Hnd]. cbn [offline_loop]. unfold cpu_online.
  destruct (bool_decide_reflect (cpu ∈ cpu_online_mask k)) as [Hon|Hoff].
  2:{ rewrite filter_cons_False by tauto. by apply IH. }
  destruct (Nat.eqb_spec cpu 0) as [->|Hne].
  { rewrite filter_cons_False by tauto. by apply IH. }
  rewrite filter_cons_True by done.
  destruct (offline_step_spec cpu k) as ((l0 & Hl0 & Hr0) & Hm1 & Ht1).
  set (k1 := cpu_down P cpu (dprintk (MsgSwitchOffline cpu) k)) in *.
  destruct (N.leb_spec (num_online_cpus k1) (target_cpus k1)) as [Hstop|Hgo].
  { exists [cpu], l0. split_and!.
    - done.
    - done.
    - apply prefix_cons, prefix_nil.
    - done.
    - intros n Hn. cbn in Hn. replace n with 0%nat by lia. exact Hlt.
    - right. rewrite <- Hm1, <- Ht1. exact Hstop. }
  destruct (IH k1 Hnd Hgo) as (req & l & Hl & Hr & Hpre & Hm & Hwhile & Hend).
  assert (filter (λ c, c ≠ 0%nat ∧ c ∈ cpu_online_mask k1) rest =
          filter (λ c, c ≠ 0%nat ∧ c ∈ cpu_online_mask k) rest) as Hsame.
  { apply filter_agree. intros x Hx. rewrite Hm1. cbn.
    assert (x ≠ cpu) by (intros ->; done). destruct (cpu_down_ok _ _ _); set_solver. }
  rewrite Hsame in Hpre, Hend. rewrite Hm1 in Hm, Hwhile, Hend. rewrite Ht1 in Hwhile, Hend.
  exists (cpu :: req), (l0 ++ l). split_and!.
  - by rewrite Hl, Hl0, app_assoc.
  - unfold requests in *. by rewrite filter_app, Hr0, Hr.
  - by apply prefix_cons.
  - done.
  - intros [|n] Hn; [exact Hlt|]. cbn in Hn. apply Hwhile. lia.
  - destruct Hend as [->|Hend]; [by left | by right].
Qed.

(** A refused request does not end the sweep: with the facts that
    [offline_loop_spec] establishes, the candidate after a refused one is
    requested as well. *)
Lemma refusal_continues (req cands : list nat) (online : gset nat) (t : N) :
  req `prefix_of` cands →
  (∀ n, (n < length req)%nat →
     t < N.of_nat (size (mask_after_down P (take n req) online))) →
  (req = cands ∨ N.of_nat (size (mask_after_down P req online)) ≤ t) →
  ∀ i cpu next,
    req !! i = Some cpu →
    cpu_down_ok P (mask_after_down P (take i req) online) cpu = false →
    cands !! S i = Some next →
    req !! S i = Some next.
Proof.
  intros Hpre Hwhile Hend i cpu next Hi Hrefused Hnext.
  pose proof (lookup_lt_Some _ _ _ Hi) as Hlen.
  destruct (decide (S i < length req)%nat) as [Hmore|Hlast].
  { by rewrite (prefix_lookup_lt _ _ _ Hmore Hpre). }
  exfalso. assert (take (S i) req = req) as Hall by (apply take_ge; lia).
  destruct Hend as [->|Hend].
  { apply lookup_lt_Some in Hnext. lia. }
  rewrite <- Hall, (take_S_r _ _ _ Hi) in Hend. unfold mask_after_down in Hend.
  rewrite foldl_app in Hend. cbn in Hend.
  fold (mask_after_down P (take i req) online) in Hend. rewrite Hrefused in Hend.
  specialize (Hwhile i Hlen). lia.
Qed.

(** C4: when the target is below the online count, the pass asks for cpus
    to go offline in ascending id order among the online cpus other than
    cpu 0, one request per cpu: the requests are a prefix of that list.
    The sweep goes on exactly while the live count, re-read after each
    request, is above the target: it ends when the count has come down to
    the target or the candidates are used up, and a request the platform
    refuses leaves the count where it was, so the next candidate is asked. *)
Theorem offline_pass_ascending_stops_at_target (k : kernel) :
  let t := compute_target (state_suspended k) (max_cpus_online (helper k)) in
  let online := cpu_online_mask k in
  let cands := offline_candidates P online in
  let k' := state_helper_work P k in
  t < num_online_cpus k →
  ∃ req,
    requests (emitted k k') = CpuDown <$> req
    ∧ req `prefix_of` cands
    ∧ StronglySorted lt cands
    ∧ (∀ cpu, cpu ∈ cands → cpu ≠ 0%nat ∧ cpu ∈ online)
    ∧ cpu_online_mask k' = mask_after_down P req online
    ∧ (∀ n, (n < length req)%nat →
         t < N.of_nat (size (mask_after_down P (take n req) online)))
    ∧ (req = cands ∨ num_online_cpus k' ≤ t)
    ∧ (∀ i cpu next,
         req !! i = Some cpu →
         cpu_down_ok P (mask_after_down P (take i req) online) cpu = false →
         cands !! S i = Some next →
         req !! S i = Some next).
Proof.
  intros t online cands k' Hlt.
  set (k0 := set_target_cpus t k).
  assert (k' = report P (offline_loop P (cpu_ids P) k0)) as Hk'.
  { unfold k', state_helper_work. fold t. fold k0.
    change (num_online_cpus k0) with (num_online_cpus k).
    change (target_cpus k0) with t.
    by destruct (N.ltb_spec t (num_online_cpus k)); [|lia]. }
  destruct (offline_loop_spec (cpu_ids P) k0 (NoDup_seq _ _) Hlt)
    as (req & l & Hl & Hr & Hpre & Hm & Hwhile & Hend).
  change (cpu_online_mask k0) with online in *.
  change (target_cpus k0) with t in *.
  change (klog k0) with (klog k) in Hl.
  fold (offline_candidates P online) in Hpre, Hend. fold cands in Hpre, Hend.
  assert (cpu_online_mask k' = mask_after_down P req online) as Hmask.
  { by rewrite Hk', report_mask. }
  exists req. split_and!.
  - rewrite Hk', requests_report; rewrite (emitted_app _ _ _ Hl); done.
  - done.
  - apply filter_strongly_sorted, seq_strongly_sorted.
  - by intros cpu [? _]%list_elem_of_filter.
  - done.
  - done.
  - unfold num_online_cpus. rewrite Hmask. done.
  - by apply (refusal_continues req cands online t).
Qed.

(** *** Convergence *)

Lemma size_remove (m : gset nat) (cpu : nat) :
  cpu ∈ m → S (size (m ∖ {[cpu]})) = size m.
Proof.
  intros Hin. rewrite size_difference by set_solver. rewrite size_singleton.
  assert (size ({[cpu]} : gset nat) ≤ size m)%nat as Hle
    by (apply subseteq_size; set_solver).
  rewrite size_singleton in Hle. lia.
Qed.

Lemma size_add (m : gset nat) (cpu : nat) :
  cpu ∉ m → size (m ∪ {[cpu]}) = S (size m).
Proof.
  intros Hout. rewrite size_union by set_solver. rewrite size_singleton. lia.
Qed.

Lemma offline_loop_converges cpus k :
  (∀ m cpu, cpu_down_ok P m cpu = true) →
  target_cpus k < num_online_cpus k →
  let k' := offline_loop P cpus k in
  cpu_online_mask k' ⊆ cpu_online_mask k
  ∧ (0%nat ∈ cpu_online_mask k → 0%nat ∈ cpu_online_mask k')
  ∧ (num_online_cpus k' = target_cpus k
     ∨ (target_cpus k < num_online_cpus k'
        ∧ ∀ cpu, cpu ∈ cpus → cpu ≠ 0%nat → cpu ∉ cpu_online_mask k')).
Proof.
  intros Hok. revert k. induction cpus as [|cpu rest IH]; intros k Hlt; cbn zeta.
  { cbn. split_and!; [done | done |]. right. split; [done|]. by intros ? ?%elem_of_nil. }
  cbn [offline_loop]. unfold cpu_online.
  destruct (bool_decide_reflect (cpu ∈ cpu_online_mask k)) as [Hon|Hoff].
  2:{ destruct (IH k Hlt) as (Hsub & H0 & Hres). split_and!; [done | done |].
      destruct Hres as [?|[? Hgone]]; [by left | right]. split; [done|].
      intros c [->|Hin]%elem_of_cons ?; [set_solver | by apply Hgone]. }
  destruct (Nat.eqb_spec cpu 0) as [->|Hne].
  { destruct (IH k Hlt) as (Hsub & H0 & Hres). split_and!; [done | done |].
    destruct Hres as [?|[? Hgone]]; [by left | right]. split; [done|].
    intros c [->|Hin]%elem_of_cons ?; [done | by apply Hgone]. }
  destruct (offline_step_spec cpu k) as (_ & Hm1 & Ht1).
  set (k1 := cpu_down P cpu (dprintk (MsgSwitchOffline cpu) k)) in *.
  cbn in Hm1. rewrite Hok in Hm1.
  assert (num_online_cpus k = N.succ (num_online_cpus k1)) as Hcount.
  { unfold num_online_cpus. rewrite Hm1. pose proof (size_remove _ _ Hon). lia. }
  destruct (N.leb_spec (num_online_cpus k1) (target_cpus k1)) as [Hstop|Hgo].
  { split_and!; [set_solver | set_solver | left; lia]. }
  destruct (IH k1 Hgo) as (Hsub & H0 & Hres). rewrite Ht1 in Hres.
  split_and!; [set_solver | set_solver |].
  destruct Hres as [?|[? Hgone]]; [by left | right]. split; [done|].
  intros c [->|Hin]%elem_of_cons ?; [set_solver | by apply Hgone].
Qed.

Lemma online_loop_converges cpus k :
  (∀ m cpu, cpu_up_ok P m cpu = true) →
  num_online_cpus k ≤ target_cpus k →
  let k' := online_loop P cpus k in
  cpu_online_mask k ⊆ cpu_online_mask k'
  ∧ (num_online_cpus k' = target_cpus k
     ∨ (num_online_cpus k' < target_cpus k
        ∧ ∀ cpu, cpu ∈ cpus → cpu ∈ cpu_possible_mask P → cpu ∈ cpu_online_mask k')).
Proof.
  intros Hok. revert k. induction cpus as [|cpu rest IH]; intros k Hle; cbn zeta.
  { cbn. split; [done|]. destruct (decide (num_online_cpus k = target_cpus k));
      [by left | right]. split; [lia | by intros ? ?%elem_of_nil]. }
  cbn [online_loop]. unfold cpu_possible.
  destruct (bool_decide_reflect (cpu ∈ cpu_possible_mask P)) as [Hp|Hp].
  2:{ destruct (IH k Hle) as (Hsub & Hres). split; [done|].
      destruct Hres as [?|[? Hall]]; [by left | right]. split; [done|].
      intros c [->|Hin]%elem_of_cons ?; [done | by apply Hall]. }
  destruct (N.leb_spec (target_cpus k) (num_online_cpus k)) as [Hstop|Hgo].
  { split; [done | left; lia]. }
  unfold cpu_online.
  destruct (bool_decide_reflect (cpu ∈ cpu_online_mask k)) as [Hon|Hoff]; cbn [negb].
  { destruct (IH k Hle) as (Hsub & Hres). split; [done|].
    destruct Hres as [?|[? Hall]]; [by left | right]. split; [done|].
    intros c [->|Hin]%elem_of_cons ?; [set_solver | by apply Hall]. }
  set (k1 := dprintk (MsgSwitchOnline cpu) (cpu_up P cpu k)).
  assert (cpu_online_mask k1 = cpu_online_mask k ∪ {[cpu]}) as Hm1.
  { unfold k1. rewrite dprintk_mask, cpu_up_mask. unfold cpu_possible.
    by rewrite bool_decide_eq_true_2, Hok. }
  assert (target_cpus k1 = target_cpus k) as Ht1.
  { unfold k1. destruct (dprintk_frame (MsgSwitchOnline cpu) (cpu_up P cpu k))
      as (_ & -> & _). by destruct (cpu_up_frame P cpu k) as (_ & -> & _). }
  assert (num_online_cpus k1 = N.succ (num_online_cpus k)) as Hcount.
  { unfold num_online_cpus. rewrite Hm1, size_add by done. lia. }
  destruct (IH k1) as (Hsub & Hres); [lia|]. rewrite Ht1 in Hres.
  split; [set_solver|].
  destruct Hres as [?|[? Hall]]; [by left | right]. split; [done|].
  intros c [->|Hin]%elem_of_cons ?; [set_solver | by apply Hall].
Qed.

Lemma pass_converges (k : kernel) :
  never_refuses P →
  cores_populated P →
  1 ≤ max_cpus_online (helper k) ≤ NR_CPUS P →
  0%nat ∈ cpu_online_mask k →
  cpu_online_mask k ⊆ cpu_possible_mask P →
  let k' := state_helper_work P k in
  num_online_cpus k' =
    compute_target (state_suspended k) (max_cpus_online (helper k))
  ∧ 1 ≤ num_online_cpus k'
  ∧ 0%nat ∈ cpu_online_mask k'.
Proof.
  intros [Hdown Hup] [Hids Htotal] Hmax H0 Hposs k'.
  set (t := compute_target (state_suspended k) (max_cpus_online (helper k))).
  assert (1 ≤ t ≤ NR_CPUS P) as Ht.
  { unfold t, compute_target, DEFAULT_SUSP_CPUS. destruct (state_suspended k); lia. }
  set (k0 := set_target_cpus t k).
  assert (num_online_cpus k' = t ∧ 0%nat ∈ cpu_online_mask k') as [Hcount Hzero];
    [|split_and!; [done | lia | done]].
  unfold k', state_helper_work. fold t. fold k0.
  change (num_online_cpus k0) with (num_online_cpus k).
  change (target_cpus k0) with t.
  destruct (N.ltb_spec t (num_online_cpus k)) as [Hlt|Hge].
  - unfold num_online_cpus. rewrite report_mask.
    destruct (offline_loop_converges (cpu_ids P) k0 Hdown Hlt) as (Hsub & Hz & Hres).
    split; [|by apply Hz].
    destruct Hres as [Hres|[Habove Hgone]]; [exact Hres | exfalso].
    change (target_cpus k0) with t in Habove.
    assert (cpu_online_mask (offline_loop P (cpu_ids P) k0) ⊆ {[0%nat]}) as Hone.
    { intros c Hc. destruct (decide (c = 0%nat)) as [->|Hne]; [set_solver|].
      exfalso. apply (Hgone c); [|done|done].
      assert (c ∈ cpu_possible_mask P) as Hc' by (apply Hposs, Hsub, Hc).
      unfold cpu_ids. rewrite elem_of_seq. specialize (Hids c Hc'). lia. }
    apply subseteq_size in Hone. rewrite size_singleton in Hone.
    unfold num_online_cpus in Habove. lia.
  - destruct (N.ltb_spec (num_online_cpus k) t) as [Hlt|Heq].
    + unfold num_online_cpus. rewrite report_mask.
      destruct (online_loop_converges (cpu_ids P) k0 Hup) as (Hsub & Hres).
      { change (target_cpus k0) with t. change (num_online_cpus k0) with (num_online_cpus k). lia. }
      split; [|set_solver].
      destruct Hres as [Hres|[Hbelow Hall]]; [exact Hres | exfalso].
      change (target_cpus k0) with t in Hbelow.
      assert (cpu_possible_mask P ⊆ cpu_online_mask (online_loop P (cpu_ids P) k0))
        as Hfull.
      { intros c Hc. apply Hall; [|done].
        unfold cpu_ids. rewrite elem_of_seq. specialize (Hids c Hc). lia. }
      apply subseteq_size in Hfull. unfold num_online_cpus in Hbelow. lia.
    + unfold num_online_cpus in *. rewrite dprintk_mask. split; [|done].
      change (cpu_online_mask k0) with (cpu_online_mask k). lia.
Qed.

(** C3: on a platform that honours every request and whose cores are the
    [NR_CPUS] possible cpus, with cpu 0 online as the pass starts, a pass
    run with a maximum between 1 and [NR_CPUS], suspended or not, leaves
    the live online count equal to the target; the count is at least 1 and
    cpu 0 is online. *)
Theorem converged_pass_reaches_target (k : kernel) :
  never_refuses P →
  cores_populated P →
  1 ≤ max_cpus_online (helper k) ≤ NR_CPUS P →
  0%nat ∈ cpu_online_mask k →
  cpu_online_mask k ⊆ cpu_possible_mask P →
  let k' := state_helper_work P k in
  num_online_cpus k' =
    compute_target (state_suspended k) (max_cpus_online (helper k))
  ∧ 1 ≤ num_online_cpus k'
  ∧ 0%nat ∈ cpu_online_mask k'.
Proof. apply pass_converges. Qed.

(** *** Idempotence *)

Lemma requests_dprintk k0 m k :
  klog k = klog k0 → requests (emitted k0 (dprintk m k)) = [].
Proof.
  intros Hk. unfold dprintk. case_match.
  - rewrite (emitted_app k0 k []); [done | by rewrite app_nil_r].
  - by rewrite (emitted_app k0 (pr_info m k) [PrInfo m]); [|cbn; rewrite Hk].
Qed.

Lemma short_circuit (k : kernel) :
  let t := compute_target (state_suspended k) (max_cpus_online (helper k)) in
  num_online_cpus k = t →
  state_helper_work P k = dprintk (MsgTargetAchieved t) (set_target_cpus t k)
  ∧ requests (emitted k (state_helper_work P k)) = []
  ∧ cpu_online_mask (state_helper_work P k) = cpu_online_mask k.
Proof.
  intros t Ht.
  assert (state_helper_work P k =
          dprintk (MsgTargetAchieved t) (set_target_cpus t k)) as Hw.
  { unfold state_helper_work. fold t.
    change (num_online_cpus (set_target_cpus t k)) with (num_online_cpus k).
    change (target_cpus (set_target_cpus t k)) with t.
    destruct (N.ltb_spec t (num_online_cpus k)); [lia|].
    destruct (N.ltb_spec (num_online_cpus k) t); [lia | done]. }
  rewrite Hw. split_and!; [done | by apply requests_dprintk | by rewrite dprintk_mask].
Qed.

(** C8: a pass that finds the live online count equal to its target makes
    no hotplug request, leaves the online mask alone and returns through
    the [Target already achieved] branch (one [dprintk]); hence a second
    pass run straight after a pass that reached its target requests
    nothing more, which is the case of every pass on a platform that
    honours the requests. *)
Theorem reconcile_idempotent (k : kernel) :
  let t := compute_target (state_suspended k) (max_cpus_online (helper k)) in
  let k1 := state_helper_work P k in
  (num_online_cpus k = t →
     k1 = dprintk (MsgTargetAchieved t) (set_target_cpus t k)
     ∧ requests (emitted k k1) = []
     ∧ cpu_online_mask k1 = cpu_online_mask k)
  ∧ (num_online_cpus k1 = t →
     state_helper_work P k1 = dprintk (MsgTargetAchieved t) k1
     ∧ requests (emitted k1 (state_helper_work P k1)) = []
     ∧ cpu_online_mask (state_helper_work P k1) = cpu_online_mask k1)
  ∧ (never_refuses P → cores_populated P →
     1 ≤ max_cpus_online (helper k) ≤ NR_CPUS P →
     0%nat ∈ cpu_online_mask k → cpu_online_mask k ⊆ cpu_possible_mask P →
     requests (emitted k1 (state_helper_work P k1)) = []
     ∧ cpu_online_mask (state_helper_work P k1) = cpu_online_mask k1).
Proof.
  intros t k1.
  assert (num_online_cpus k1 = t →
     state_helper_work P k1 = dprintk (MsgTargetAchieved t) k1
     ∧ requests (emitted k1 (state_helper_work P k1)) = []
     ∧ cpu_online_mask (state_helper_work P k1) = cpu_online_mask k1) as Hsecond;
    [|split_and!; [apply short_circuit | exact Hsecond |
        intros Hnr Hpop Hmax H0 Hsub;
        destruct (pass_converges k Hnr Hpop Hmax H0 Hsub) as (Hc & _);
        by destruct (Hsecond Hc) as (_ & ? & ?)]].
  intros Hconv.
  destruct (state_helper_work_frame P k) as (Hh & Ht & _ & _ & _ & _ & Hs).
  fold k1 in Hh, Ht, Hs. cbn in Hh, Ht, Hs. fold t in Ht.
  pose proof (short_circuit k1) as Hsc. cbn zeta in Hsc.
  rewrite Hh, Hs in Hsc. fold t in Hsc.
  replace (set_target_cpus t k1) with k1 in Hsc
    by (rewrite <- Ht; symmetry; apply set_target_cpus_id).
  by apply Hsc.
Qed.

(** *** Stop *)

Lemma wake_loop_spec cpus k :
  NoDup cpus →
  klog (wake_loop P cpus k) =
    klog k ++ (CpuUp <$> filter (λ cpu, cpu ∈ cpu_possible_mask P ∧
                                        cpu ∉ cpu_online_mask k) cpus)
  ∧ cpu_online_mask k ⊆ cpu_online_mask (wake_loop P cpus k)
  ∧ ((∀ m cpu, cpu_up_ok P m cpu = true) →
     ∀ cpu, cpu ∈ cpus → cpu ∈ cpu_possible_mask P →
            cpu ∈ cpu_online_mask (wake_loop P cpus k)).
Proof.
  revert k. induction cpus as [|cpu rest IH]; intros k Hnd.
  { cbn. rewrite app_nil_r. split_and!; [done | done | by intros _ ? ?%elem_of_nil]. }
  apply NoDup_cons in Hnd as [Hfresh Hnd]. cbn [wake_loop].
  unfold cpu_possible, cpu_online.
  destruct (bool_decide_reflect (cpu ∈ cpu_possible_mask P)) as [Hp|Hp].
  2:{ rewrite filter_cons_False by tauto.
      destruct (IH k Hnd) as (Hl & Hsub & Hall). split_and!; [done | done |].
      intros Hok c [->|Hin]%elem_of_cons Hc; [done | by apply Hall]. }
  destruct (bool_decide_reflect (cpu ∈ cpu_online_mask k)) as [Ho|Ho]; cbn [negb].
  { rewrite filter_cons_False by tauto.
    destruct (IH k Hnd) as (Hl & Hsub & Hall). split_and!; [done | done |].
    intros Hok c [->|Hin]%elem_of_cons Hc; [by apply Hsub | by apply Hall]. }
  rewrite filter_cons_True by tauto.
  destruct (IH (cpu_up P cpu k) Hnd) as (Hl & Hsub & Hall).
  pose proof (cpu_up_mask P cpu k) as Hm.
  assert (cpu_online_mask k ⊆ cpu_online_mask (cpu_up P cpu k)) as Hmono.
  { rewrite Hm. destruct (_ && _); set_solver. }
  split_and!.
  - rewrite Hl, cpu_up_klog, <- app_assoc. cbn. do 3 f_equal.
    apply filter_agree. intros x Hx. rewrite Hm.
    assert (x ≠ cpu) by (intros ->; done). destruct (_ && _); set_solver.
  - set_solver.
  - intros Hok c [->|Hin]%elem_of_cons Hc; [|by apply Hall].
    apply Hsub. rewrite Hm. unfold cpu_possible.
    rewrite bool_decide_eq_true_2, Hok by done. set_solver.
Qed.

(** C6: [state_helper_stop], once the notifier is unregistered and the
    queue drained, asks for exactly the possible cpus that are not online
    at that point, whatever the configuration and the last target; so
    every possible cpu is online or has been requested online, and on a
    platform that honours the requests every possible cpu ends online. *)
Theorem stop_wakes_all_possible (k : kernel) :
  let k1 := drain P k in
  let k2 := state_helper_stop P k in
  notif_registered k1 = false
  ∧ work_pending k1 = false
  ∧ (∃ pass, emitted k k1 =
       StateUnregisterClient :: FlushWorkqueue :: pass ++ [CancelDelayedWorkSync])
  ∧ emitted k1 k2 = CpuUp <$> offline_possible P (cpu_online_mask k1)
  ∧ emitted k k2 = emitted k k1 ++ emitted k1 k2
  ∧ (∀ cpu, cpu ∈ cpu_possible_mask P → (cpu < nr_cpu_ids P)%nat →
       cpu ∈ cpu_online_mask k1 ∨ CpuUp cpu ∈ emitted k1 k2)
  ∧ ((∀ m cpu, cpu_up_ok P m cpu = true) →
     (∀ cpu, cpu ∈ cpu_possible_mask P → (cpu < nr_cpu_ids P)%nat) →
     cpu_possible_mask P ⊆ cpu_online_mask k2).
Proof.
  intros k1 k2.
  destruct (wake_loop_spec (cpu_ids P) k1 (NoDup_seq _ _)) as (Hl & Hsub & Hall).
  fold (offline_possible P (cpu_online_mask k1)) in Hl.
  change (wake_loop P (cpu_ids P) k1) with k2 in *.
  pose proof (emitted_app _ _ _ Hl) as Hem.
  assert (∃ pass, klog k1 = klog k ++
            StateUnregisterClient :: FlushWorkqueue :: pass ++ [CancelDelayedWorkSync])
    as [pass Hpass].
  { unfold k1, drain. set (k0 := emit FlushWorkqueue _).
    destruct (run_pending_work_logs P (λ _, True) k0) as (pass & Hp & _).
    { by split. }
    exists pass. cbn. rewrite Hp. cbn. rewrite <- !app_assoc. done. }
  split_and!.
  - unfold k1, drain. cbn.
    apply run_pending_work_frame_registered.
  - done.
  - exists pass. by apply emitted_app.
  - exact Hem.
  - rewrite Hem, (emitted_app _ _ _ Hpass). apply emitted_app.
    rewrite Hl, Hpass. by rewrite <- app_assoc.
  - intros cpu Hp Hlt.
    destruct (decide (cpu ∈ cpu_online_mask k1)) as [?|Hoff]; [by left|right].
    rewrite Hem. apply list_elem_of_fmap. exists cpu. split; [done|].
    apply list_elem_of_filter. split; [done|].
    unfold cpu_ids. rewrite elem_of_seq. lia.
  - intros Hok Hids cpu Hp. apply Hall; [done | | done].
    unfold cpu_ids. rewrite elem_of_seq. specialize (Hids cpu Hp). lia.
Qed.

(** *** The enabled flag and the pass *)

Lemma dprintk_set_enabled e m k :
  dprintk m (set_enabled e k) = set_enabled e (dprintk m k).
Proof. unfold dprintk. cbn. by case_match. Qed.

Lemma cpu_down_set_enabled e cpu k :
  cpu_down P cpu (set_enabled e k) = set_enabled e (cpu_down P cpu k).
Proof. unfold cpu_down. cbn. by case_match. Qed.

Lemma cpu_up_set_enabled e cpu k :
  cpu_up P cpu (set_enabled e k) = set_enabled e (cpu_up P cpu k).
Proof. unfold cpu_up. cbn. by case_match. Qed.

Lemma cpu_online_set_enabled e cpu k :
  cpu_online cpu (set_enabled e k) = cpu_online cpu k.
Proof. done. Qed.

Lemma num_online_cpus_set_enabled e k :
  num_online_cpus (set_enabled e k) = num_online_cpus k.
Proof. done. Qed.

Lemma target_cpus_set_enabled e k :
  target_cpus (set_enabled e k) = target_cpus k.
Proof. done. Qed.

Lemma offline_loop_set_enabled e cpus k :
  offline_loop P cpus (set_enabled e k) = set_enabled e (offline_loop P cpus k).
Proof.
  revert k. induction cpus as [|cpu rest IH]; intros k; [done|].
  cbn [offline_loop]. rewrite cpu_online_set_enabled.
  destruct (cpu_online cpu k); [|apply IH].
  destruct (cpu =? 0)%nat; [apply IH|].
  rewrite dprintk_set_enabled, cpu_down_set_enabled.
  rewrite num_online_cpus_set_enabled, target_cpus_set_enabled.
  case_match; [done | apply IH].
Qed.

Lemma online_loop_set_enabled e cpus k :
  online_loop P cpus (set_enabled e k) = set_enabled e (online_loop P cpus k).
Proof.
  revert k. induction cpus as [|cpu rest IH]; intros k; [done|].
  cbn [online_loop]. rewrite cpu_online_set_enabled.
  rewrite num_online_cpus_set_enabled, target_cpus_set_enabled.
  destruct (cpu_possible P cpu); [|apply IH].
  case_match; [done|].
  destruct (cpu_online cpu k); cbn [negb]; [apply IH|].
  rewrite cpu_up_set_enabled, dprintk_set_enabled. apply IH.
Qed.

Lemma status_loop_set_enabled e cpus k :
  status_loop P cpus (set_enabled e k) = set_enabled e (status_loop P cpus k).
Proof.
  revert k. induction cpus as [|cpu rest IH]; intros k; [done|].
  cbn [status_loop]. rewrite cpu_online_set_enabled.
  destruct (cpu_possible P cpu); [|apply IH].
  apply (IH (pr_info _ k)).
Qed.

Lemma report_set_enabled e k :
  report P (set_enabled e k) = set_enabled e (report P k).
Proof.
  unfold report. cbn [set_enabled helper debug]. case_match; [done|].
  apply (status_loop_set_enabled e _ (pr_info _ k)).
Qed.

(** C1 (amended): the pass never reads the enabled flag: run with any value
    of the flag it makes the same requests and leaves the same state.  The
    guard sits in the dispatcher: [state_notifier_callback] queues nothing
    while the flag is 0 and queues the pass otherwise. *)
Theorem pass_ignores_enabled_dispatcher_guards (e : N) (k : kernel) :
  state_helper_work P (set_enabled e k) = set_enabled e (state_helper_work P k)
  ∧ emitted (set_enabled e k) (state_helper_work P (set_enabled e k)) =
    emitted k (state_helper_work P k)
  ∧ (enabled (helper k) = 0 → state_notifier_callback k = (NOTIFY_OK, k))
  ∧ (enabled (helper k) ≠ 0 →
       state_notifier_callback k = (NOTIFY_OK, reschedule_work k)
       ∧ emitted k (state_notifier_callback k).2 = [QueueDelayedWork]
       ∧ work_pending (state_notifier_callback k).2 = true).
Proof.
  assert (state_helper_work P (set_enabled e k) =
          set_enabled e (state_helper_work P k)) as Hcomm.
  { unfold state_helper_work.
    change (set_target_cpus ?t (set_enabled e k))
      with (set_enabled e (set_target_cpus t k)).
    set (k1 := set_target_cpus _ k).
    rewrite num_online_cpus_set_enabled, target_cpus_set_enabled.
    repeat case_match.
    - by rewrite offline_loop_set_enabled, report_set_enabled.
    - by rewrite online_loop_set_enabled, report_set_enabled.
    - apply dprintk_set_enabled. }
  split_and!.
  - exact Hcomm.
  - by rewrite Hcomm.
  - intros Hz. unfold state_notifier_callback. by rewrite Hz.
  - intros Hnz. unfold state_notifier_callback.
    destruct (N.eqb_spec (enabled (helper k)) 0); [done|].
    split_and!; [done | by apply emitted_app | done].
Qed.

End Properties.

(** ** Instances on the concrete platforms *)

Lemma store_enabled_same_value_witness :
  store_enabled quad "0" 2 quad_boot = (2%Z, quad_boot)
  ∧ emitted quad_boot (store_enabled quad "0" 2 quad_boot).2 = [].
Proof.
  apply (store_enabled_same_value quad "0" 2 quad_boot 0);
    [reflexivity | lia | reflexivity].
Defined.

Lemma store_max_cpus_online_spec_witness :
  (store_max_cpus_online quad "2" 2 quad_enabled).1 = 2%Z
  ∧ max_cpus_online (helper (store_max_cpus_online quad "2" 2 quad_enabled).2) = 2
  ∧ work_pending (store_max_cpus_online quad "2" 2 quad_enabled).2 = true
  ∧ store_max_cpus_online quad "0" 2 quad_enabled = ((-22)%Z, quad_enabled).
Proof.
  pose proof (store_max_cpus_online_spec quad "2" 2 quad_enabled) as (_ & _ & H & _).
  pose proof (store_max_cpus_online_spec quad "0" 2 quad_enabled) as (_ & Hbad & _).
  destruct (H 2) as (H1 & H2 & _ & H3); [reflexivity | cbn; lia |].
  destruct H3 as [_ H3]; [cbn; lia|].
  split_and!; [exact H1 | exact H2 | exact H3 |].
  apply Hbad. intros (val & [= <-] & ?). lia.
Defined.

Lemma pass_ignores_enabled_dispatcher_guards_witness :
  state_notifier_callback quad_boot = (NOTIFY_OK, quad_boot)
  ∧ work_pending (state_notifier_callback quad_enabled).2 = true.
Proof.
  pose proof (pass_ignores_enabled_dispatcher_guards quad 0 quad_boot) as (_ & _ & H0 & _).
  pose proof (pass_ignores_enabled_dispatcher_guards quad 0 quad_enabled) as (_ & _ & _ & H1).
  split; [apply H0; reflexivity|].
  destruct H1 as (_ & _ & H1); [cbn; lia | exact H1].
Defined.

Lemma quad_never_refuses : never_refuses quad.
Proof. by split. Qed.

Lemma quad_cores_populated : cores_populated quad.
Proof.
  split; [|reflexivity]. intros cpu Hcpu.
  change (cpu ∈ (list_to_set (seq 0 4) : gset nat)) in Hcpu.
  apply elem_of_list_to_set, elem_of_seq in Hcpu. cbn. lia.
Qed.

Lemma quad_cpu0_online : 0%nat ∈ cpu_online_mask quad_suspended.
Proof.
  change (0%nat ∈ (list_to_set (seq 0 4) : gset nat)).
  apply elem_of_list_to_set, elem_of_seq. lia.
Qed.

Lemma converged_pass_reaches_target_witness :
  num_online_cpus (state_helper_work quad quad_suspended) = 1
  ∧ 1 ≤ num_online_cpus (state_helper_work quad quad_suspended)
  ∧ 0%nat ∈ cpu_online_mask (state_helper_work quad quad_suspended).
Proof.
  apply (converged_pass_reaches_target quad quad_suspended).
  - exact quad_never_refuses.
  - exact quad_cores_populated.
  - cbn. lia.
  - exact quad_cpu0_online.
  - reflexivity.
Defined.

Lemma offline_pass_ascending_stops_at_target_witness :
  ∃ req,
    requests (emitted quad_suspended (state_helper_work stubborn quad_suspended)) =
      CpuDown <$> req
    ∧ req `prefix_of` offline_candidates stubborn (cpu_online_mask quad_suspended)
    ∧ cpu_online_mask (state_helper_work stubborn quad_suspended) =
      mask_after_down stubborn req (cpu_online_mask quad_suspended).
Proof.
  destruct (offline_pass_ascending_stops_at_target stubborn quad_suspended)
    as (req & Hreq & Hpre & _ & _ & Hmask & _).
  - vm_compute. reflexivity.
  - exists req. split_and!; [exact Hreq | exact Hpre | exact Hmask].
Defined.

Lemma reconcile_idempotent_witness :
  requests (emitted quad_enabled (state_helper_work quad quad_enabled)) = []
  ∧ requests (emitted (state_helper_work quad quad_suspended)
                (state_helper_work quad (state_helper_work quad quad_suspended))) = [].
Proof.
  pose proof (reconcile_idempotent quad quad_enabled) as [H1 _].
  pose proof (reconcile_idempotent quad quad_suspended) as (_ & H2 & _).
  split.
  - apply H1. vm_compute. reflexivity.
  - apply H2. vm_compute. reflexivity.
Defined.

Lemma stop_wakes_all_possible_witness :
  cpu_possible_mask quad ⊆ cpu_online_mask (state_helper_stop quad quad_parked).
Proof.
  pose proof (stop_wakes_all_possible quad quad_parked) as (_ & _ & _ & _ & _ & _ & H).
  apply H.
  - reflexivity.
  - apply quad_cores_populated.
Defined.

(** The scenarios of the specification, on [quad]. *)

Example suspend_parks_all_but_cpu0 :
  requests (emitted quad_suspended (state_helper_work quad quad_suspended)) =
    [CpuDown 1; CpuDown 2; CpuDown 3]
  ∧ elements (cpu_online_mask (state_helper_work quad quad_suspended)) = [0%nat].
Proof. by vm_compute. Qed.

Example resume_wakes_in_order :
  let k := set_state_suspended false quad_parked in
  requests (emitted k (state_helper_work quad k)) = [CpuUp 1; CpuUp 2; CpuUp 3]
  ∧ num_online_cpus (state_helper_work quad k) = 4.
Proof. by vm_compute. Qed.

Example max_two_parks_lowest_ids :
  let k := run quad [OpStoreMaxCpusOnline "2" 2; OpWorker] quad_enabled in
  requests (klog k) = [CpuDown 1; CpuDown 2]
  ∧ num_online_cpus k = 2
  ∧ bool_decide (0%nat ∈ cpu_online_mask k) = true.
Proof. by vm_compute. Qed.

Example max_zero_rejected :
  store_max_cpus_online quad "0" 2 quad_enabled = ((- EINVAL)%Z, quad_enabled).
Proof. reflexivity. Qed.

(** A refusal is tolerated: cpu 1 refuses, cpus 2 and 3 are still asked,
    and the pass ends one above its target. *)
Example refusal_is_tolerated :
  requests (emitted quad_suspended (state_helper_work stubborn quad_suspended)) =
    [CpuDown 1; CpuDown 2; CpuDown 3]
  ∧ num_online_cpus (state_helper_work stubborn quad_suspended) = 2.
Proof. by vm_compute. Qed.

(** C1, as stated, fails: run with the flag at 0, the pass still takes
    cpu 1 offline. *)
Lemma disabled_pass_still_offlines :
  enabled (helper quad_disabled_suspended) = 0
  ∧ requests (emitted quad_disabled_suspended
                (state_helper_work quad quad_disabled_suspended)) = [CpuDown 1]
  ∧ cpu_online_mask (state_helper_work quad quad_disabled_suspended) = {[0%nat]}.
Proof. split_and!; [reflexivity | by vm_compute | by vm_compute]. Qed.

(** The pass does run with the flag at 0 in a run of the module: a pass
    queued by a suspend notification is still pending when the governor is
    switched off; [store_enabled] clears the flag and then flushes the
    queue. *)
Lemma pass_runs_while_disabled :
  let k := run quad [OpStoreEnabled "1" 2; OpWorker; OpStateNotify true] quad_boot in
  work_pending k = true
  ∧ requests (emitted k (drain quad (set_enabled 0 k))) =
    [CpuDown 1; CpuDown 2; CpuDown 3]
  ∧ requests (emitted k (step quad (OpStoreEnabled "0" 2) k)) =
    [CpuDown 1; CpuDown 2; CpuDown 3; CpuUp 1; CpuUp 2; CpuUp 3].
Proof. by vm_compute. Qed.

(** C9, as stated, fails: the compiled-in default of the enabled flag is
    0. *)
Lemma default_is_disabled :
  ¬ (enabled (helper (module_load quad false ∅)) ≠ 0
     ∧ max_cpus_online (helper (module_load quad false ∅)) = NR_CPUS quad
     ∧ debug (helper (module_load quad false ∅)) ≠ 0).
Proof. intros [H _]. by apply H. Qed.

(** ** Further properties of the driver *)

Section Footprint.
Context (P : platform).

(** *** What a pass and a stop touch *)

Lemma offline_loop_emits (Q : event → Prop) cpus k :
  (∀ cpu, cpu ∈ cpus → cpu ≠ 0%nat → Q (CpuDown cpu)) →
  (∀ m, Q (PrInfo m)) →
  logs Q k (offline_loop P cpus k).
Proof.
  intros Hd Hp. revert k. induction cpus as [|cpu rest IH]; intros k; cbn.
  { apply logs_refl. }
  assert (∀ k, logs Q k (offline_loop P rest k)) as IH'.
  { apply IH. intros c Hc. apply Hd. by right. }
  destruct (cpu_online cpu k); [|apply IH'].
  destruct (Nat.eqb_spec cpu 0) as [->|Hne]; [apply IH'|].
  assert (logs Q k (cpu_down P cpu (dprintk (MsgSwitchOffline cpu) k))) as Hstep.
  { eapply logs_trans; [apply dprintk_logs, Hp|].
    apply cpu_down_logs, Hd; [by left | done]. }
  case_match; [done | by eapply logs_trans].
Qed.

Lemma online_loop_emits (Q : event → Prop) cpus k :
  (∀ cpu, cpu ∈ cpus → cpu ∈ cpu_possible_mask P → Q (CpuUp cpu)) →
  (∀ m, Q (PrInfo m)) →
  logs Q k (online_loop P cpus k).
Proof.
  intros Hu Hp. revert k. induction cpus as [|cpu rest IH]; intros k; cbn.
  { apply logs_refl. }
  assert (∀ k, logs Q k (online_loop P rest k)) as IH'.
  { apply IH. intros c Hc. apply Hu. by right. }
  unfold cpu_possible.
  destruct (bool_decide_reflect (cpu ∈ cpu_possible_mask P)) as [Hposs|_]; [|apply IH'].
  case_match; [apply logs_refl|].
  destruct (cpu_online cpu k); cbn; [apply IH'|].
  eapply logs_trans; [|apply IH'].
  eapply logs_trans; [apply cpu_up_logs, Hu; [by left | done] | apply dprintk_logs, Hp].
Qed.

Lemma offline_loop_shrinks cpus k :
  cpu_online_mask (offline_loop P cpus k) ⊆ cpu_online_mask k.
Proof.
  revert k. induction cpus as [|cpu rest IH]; intros k; cbn [offline_loop]; [done|].
  destruct (cpu_online cpu k); [|apply IH].
  destruct (cpu =? 0)%nat; [apply IH|].
  assert (cpu_online_mask (cpu_down P cpu (dprintk (MsgSwitchOffline cpu) k))
          ⊆ cpu_online_mask k) as Hstep.
  { rewrite cpu_down_mask, dprintk_mask. destruct (cpu_down_ok _ _ _); set_solver. }
  case_match; [done | etrans; [apply IH | done]].
Qed.

Lemma online_loop_within cpus k :
  cpu_online_mask (online_loop P cpus k) ⊆ cpu_online_mask k ∪ cpu_possible_mask P.
Proof.
  revert k. induction cpus as [|cpu rest IH]; intros k; cbn [online_loop].
  { set_solver. }
  unfold cpu_possible.
  destruct (bool_decide_reflect (cpu ∈ cpu_possible_mask P)) as [Hposs|_]; [|apply IH].
  case_match; [set_solver|].
  destruct (cpu_online cpu k); cbn [negb]; [apply IH|].
  etrans; [apply IH|]. rewrite dprintk_mask, cpu_up_mask.
  destruct (_ && _); set_solver.
Qed.

Lemma pass_event_ids cpu :
  cpu ∈ cpu_ids P → (cpu < nr_cpu_ids P)%nat.
Proof. unfold cpu_ids. rewrite elem_of_seq. lia. Qed.

Lemma state_helper_work_emits k : logs (pass_event P) k (state_helper_work P k).
Proof.
  unfold state_helper_work.
  set (k1 := set_target_cpus _ k). apply (logs_eq_l _ k1); [done|].
  assert (∀ k, logs (pass_event P) k (report P k)) as Hrep.
  { intros k'. destruct (report_spec P k') as [ms ->]. exists (PrInfo <$> ms).
    split; [done|]. apply Forall_fmap, Forall_forall. by intros m _. }
  repeat case_match.
  - eapply logs_trans; [|apply Hrep]. apply offline_loop_emits; [|done].
    intros cpu Hc Hne. split; [done | by apply pass_event_ids].
  - eapply logs_trans; [|apply Hrep]. apply online_loop_emits; [|done].
    intros cpu Hc Hp. split; [done | by apply pass_event_ids].
  - by apply dprintk_logs.
Qed.

(** X1: a pass makes no call into the kernel other than printk and
    hotplug requests, and those only for sensible cpus: offline for an id
    other than 0, online for a possible cpu, ids below [nr_cpu_ids].  It
    leaves the configuration, the work queue and the notifier as they
    were, and no cpu outside the possible ones comes online through it. *)
Theorem pass_footprint (k : kernel) :
  let k' := state_helper_work P k in
  Forall (pass_event P) (emitted k k')
  ∧ klog k' = klog k ++ emitted k k'
  ∧ helper k' = helper k
  ∧ helper_wq k' = helper_wq k
  ∧ notifier_call k' = notifier_call k
  ∧ notif_registered k' = notif_registered k
  ∧ work_pending k' = work_pending k
  ∧ state_suspended k' = state_suspended k
  ∧ cpu_online_mask k' ⊆ cpu_online_mask k ∪ cpu_possible_mask P.
Proof.
  intros k'. pose proof (state_helper_work_emits k) as Hlogs.
  destruct (state_helper_work_frame P k) as (Hh & _ & Hwq & Hnc & Hnr & Hwp & Hs).
  split_and!; try done.
  - by apply logs_emitted.
  - by eapply logs_klog.
  - unfold k', state_helper_work. set (k1 := set_target_cpus _ k).
    repeat case_match.
    + rewrite report_mask. etrans; [apply offline_loop_shrinks|]. set_solver.
    + rewrite report_mask. apply (online_loop_within _ k1).
    + rewrite dprintk_mask. set_solver.
Qed.

Lemma run_pending_work_fields k :
  let k' := run_pending_work P k in
  helper k' = helper k ∧ helper_wq k' = helper_wq k
  ∧ notifier_call k' = notifier_call k ∧ notif_registered k' = notif_registered k
  ∧ work_pending k' = false ∧ state_suspended k' = state_suspended k.
Proof.
  cbn zeta. unfold run_pending_work. destruct (work_pending k) eqn:Hwp; [|done].
  destruct (state_helper_work_frame P (set_work_pending false k))
    as (-> & _ & -> & -> & -> & -> & ->). done.
Qed.

Lemma drain_fields k :
  let k' := drain P k in
  helper k' = helper k ∧ helper_wq k' = helper_wq k
  ∧ notifier_call k' = false ∧ notif_registered k' = false
  ∧ work_pending k' = false ∧ state_suspended k' = state_suspended k.
Proof.
  cbn zeta. unfold drain. set (k0 := emit FlushWorkqueue _).
  destruct (run_pending_work_fields k0) as (Hh & Hwq & Hnc & Hnr & _ & Hs).
  cbn. rewrite Hh, Hwq, Hnc, Hnr, Hs. done.
Qed.

Lemma state_helper_stop_fields k :
  let k' := state_helper_stop P k in
  helper k' = helper k ∧ helper_wq k' = helper_wq k
  ∧ notifier_call k' = false ∧ notif_registered k' = false
  ∧ work_pending k' = false ∧ state_suspended k' = state_suspended k.
Proof.
  cbn zeta. unfold state_helper_stop.
  destruct (wake_loop_frame P (cpu_ids P) (drain P k))
    as (-> & _ & -> & -> & -> & -> & ->).
  apply drain_fields.
Qed.

Lemma state_helper_stop_emits k : logs (stop_event P) k (state_helper_stop P k).
Proof.
  unfold state_helper_stop. apply (logs_trans _ _ (drain P k)).
  - unfold drain. set (k1 := set_notifier_call false _).
    assert (logs (stop_event P) k k1) as H1.
    { exists [StateUnregisterClient]. split; [done|]. apply Forall_singleton. by right; left. }
    eapply logs_trans; [exact H1|].
    set (k2 := run_pending_work P (emit FlushWorkqueue k1)).
    assert (logs (stop_event P) k1 k2) as H2.
    { eapply logs_trans; [apply (logs_emit _ FlushWorkqueue); by right; right; left|].
      unfold k2, run_pending_work. case_match; [|apply logs_refl].
      eapply (logs_eq_l _ (set_work_pending false (emit FlushWorkqueue k1))); [done|].
      eapply logs_mono; [|apply state_helper_work_emits]. intros e He. by left. }
    eapply logs_trans; [exact H2|].
    exists [CancelDelayedWorkSync]. split; [done|]. apply Forall_singleton.
    by right; right; right.
  - destruct (wake_loop_spec P (cpu_ids P) (drain P k) (NoDup_seq _ _)) as (Hl & _).
    eexists. split; [exact Hl|]. apply Forall_fmap, Forall_forall.
    intros cpu [[Hp _] Hin]%list_elem_of_filter. left. split; [done|].
    by apply pass_event_ids.
Qed.

(** X2: [state_helper_stop] unregisters, flushes, cancels and wakes cpus,
    and nothing else: it never destroys the work queue that
    [state_helper_start] allocated ([helper_wq] is what it was), never
    queues work, and never writes the configuration; when it returns the
    notifier is off the chain and no pass is pending. *)
Theorem stop_footprint (k : kernel) :
  let k' := state_helper_stop P k in
  Forall (stop_event P) (emitted k k')
  ∧ (DestroyWorkqueue ∉ emitted k k')
  ∧ (QueueDelayedWork ∉ emitted k k')
  ∧ helper k' = helper k
  ∧ helper_wq k' = helper_wq k
  ∧ notifier_call k' = false
  ∧ notif_registered k' = false
  ∧ work_pending k' = false.
Proof.
  intros k'. pose proof (logs_emitted _ _ _ (state_helper_stop_emits k)) as Hall.
  destruct (state_helper_stop_fields k) as (Hh & Hwq & Hnc & Hnr & Hwp & _).
  split_and!; try done.
  - intros Hin. rewrite Forall_forall in Hall. specialize (Hall _ Hin).
    destruct Hall as [[]|[?|[?|?]]]; done.
  - intros Hin. rewrite Forall_forall in Hall. specialize (Hall _ Hin).
    destruct Hall as [[]|[?|[?|?]]]; done.
Qed.

End Footprint.

Section Sweeps.
Context (P : platform).

(** *** The count moves toward the target only *)

Lemma offline_loop_bounds cpus k :
  target_cpus k < num_online_cpus k →
  target_cpus k ≤ num_online_cpus (offline_loop P cpus k) ≤ num_online_cpus k.
Proof.
  revert k. induction cpus as [|cpu rest IH]; intros k Hlt; cbn [offline_loop]; [lia|].
  unfold cpu_online.
  destruct (bool_decide_reflect (cpu ∈ cpu_online_mask k)) as [Hon|_]; [|by apply IH].
  destruct (cpu =? 0)%nat; [by apply IH|].
  destruct (offline_step_spec P cpu k) as (_ & Hm1 & Ht1).
  set (k1 := cpu_down P cpu (dprintk (MsgSwitchOffline cpu) k)) in *.
  assert (num_online_cpus k = num_online_cpus k1
          ∨ num_online_cpus k = N.succ (num_online_cpus k1)) as Hcount.
  { unfold num_online_cpus. rewrite Hm1. cbn. destruct (cpu_down_ok _ _ _); [|by left].
    right. pose proof (size_remove _ _ Hon). lia. }
  destruct (N.leb_spec (num_online_cpus k1) (target_cpus k1)) as [Hstop|Hgo]; [lia|].
  specialize (IH k1 Hgo). lia.
Qed.

Lemma online_loop_bounds cpus k :
  num_online_cpus k ≤ target_cpus k →
  num_online_cpus k ≤ num_online_cpus (online_loop P cpus k) ≤ target_cpus k.
Proof.
  revert k. induction cpus as [|cpu rest IH]; intros k Hle; cbn [online_loop]; [lia|].
  destruct (cpu_possible P cpu) eqn:Hposs; [|by apply IH].
  destruct (N.leb_spec (target_cpus k) (num_online_cpus k)) as [Hstop|Hgo]; [lia|].
  unfold cpu_online.
  destruct (bool_decide_reflect (cpu ∈ cpu_online_mask k)) as [_|Hoff]; cbn [negb];
    [by apply IH|].
  set (k1 := dprintk (MsgSwitchOnline cpu) (cpu_up P cpu k)).
  assert (target_cpus k1 = target_cpus k) as Ht1.
  { unfold k1. destruct (dprintk_frame (MsgSwitchOnline cpu) (cpu_up P cpu k))
      as (_ & -> & _). by destruct (cpu_up_frame P cpu k) as (_ & -> & _). }
  assert (num_online_cpus k1 = num_online_cpus k
          ∨ num_online_cpus k1 = N.succ (num_online_cpus k)) as Hcount.
  { unfold num_online_cpus, k1. rewrite dprintk_mask, cpu_up_mask.
    destruct (_ && _); [|by left]. right. rewrite size_add by done. lia. }
  specialize (IH k1). lia.
Qed.

(** X3: whatever the platform answers, a pass moves the online count
    toward its target and never past it: above the target the count can
    only come down, and not below the target; below the target it can only
    go up, and not above the target. *)
Theorem pass_never_overshoots (k : kernel) :
  let t := compute_target (state_suspended k) (max_cpus_online (helper k)) in
  let c := num_online_cpus k in
  let c' := num_online_cpus (state_helper_work P k) in
  (t < c → t ≤ c' ≤ c)
  ∧ (c < t → c ≤ c' ≤ t)
  ∧ N.min t c ≤ c' ≤ N.max t c.
Proof.
  intros t c c'.
  assert ((t < c → t ≤ c' ≤ c) ∧ (c < t → c ≤ c' ≤ t) ∧ (c = t → c' = c))
    as (Hdown & Hup & Heq); [|split_and!; try done; lia].
  assert (∀ x, num_online_cpus (report P x) = num_online_cpus x) as Hrep
    by (intros x; unfold num_online_cpus; by rewrite report_mask).
  assert (∀ m x, num_online_cpus (dprintk m x) = num_online_cpus x) as Hdp
    by (intros m x; unfold num_online_cpus; by rewrite dprintk_mask).
  unfold c', state_helper_work. fold t. set (k0 := set_target_cpus t k).
  change (num_online_cpus k0) with c. change (target_cpus k0) with t.
  destruct (N.ltb_spec t c) as [Hlt|Hge].
  - rewrite Hrep. pose proof (offline_loop_bounds (cpu_ids P) k0 Hlt) as Hb.
    change (target_cpus k0) with t in Hb. change (num_online_cpus k0) with c in Hb.
    split_and!; intros; lia.
  - destruct (N.ltb_spec c t) as [Hlt|Heq].
    + rewrite Hrep. pose proof (online_loop_bounds (cpu_ids P) k0 Hge) as Hb.
      change (target_cpus k0) with t in Hb. change (num_online_cpus k0) with c in Hb.
      split_and!; intros; lia.
    + rewrite Hdp. change (num_online_cpus k0) with c. split_and!; intros; lia.
Qed.

(** *** The online sweep *)

Lemma online_step_spec cpu k :
  let k1 := dprintk (MsgSwitchOnline cpu) (cpu_up P cpu k) in
  (∃ l, klog k1 = klog k ++ l ∧ requests l = [CpuUp cpu])
  ∧ cpu_online_mask k1 = mask_after_up P [cpu] (cpu_online_mask k)
  ∧ target_cpus k1 = target_cpus k.
Proof.
  cbn zeta. split_and!.
  - unfold dprintk. destruct (debug (helper (cpu_up P cpu k)) =? 0).
    + exists [CpuUp cpu]. by rewrite cpu_up_klog.
    + exists [CpuUp cpu; PrInfo (MsgSwitchOnline cpu)]. cbn.
      by rewrite cpu_up_klog, <- app_assoc.
  - by rewrite dprintk_mask, cpu_up_mask.
  - destruct (dprintk_frame (MsgSwitchOnline cpu) (cpu_up P cpu k)) as (_ & -> & _).
    by destruct (cpu_up_frame P cpu k) as (_ & -> & _).
Qed.

Lemma online_loop_spec cpus k :
  NoDup cpus →
  let online := cpu_online_mask k in
  let cands := filter (λ cpu, cpu ∈ cpu_possible_mask P ∧ cpu ∉ online) cpus in
  ∃ req l,
    klog (online_loop P cpus k) = klog k ++ l
    ∧ requests l = CpuUp <$> req
    ∧ req `prefix_of` cands
    ∧ cpu_online_mask (online_loop P cpus k) = mask_after_up P req online
    ∧ (∀ n, (n < length req)%nat →
         N.of_nat (size (mask_after_up P (take n req) online)) < target_cpus k)
    ∧ (req = cands ∨
       target_cpus k ≤ N.of_nat (size (mask_after_up P req online))).
Proof.
  revert k. induction cpus as [|cpu rest IH]; intros k Hnd; cbn zeta.
  { exists [], []. cbn. rewrite app_nil_r.
    split_and!; [done | done | done | done | intros; lia | by left]. }
  apply NoDup_cons in Hnd as [Hfresh Hnd]. cbn [online_loop].
  destruct (cpu_possible P cpu) eqn:Hpb;
    [apply bool_decide_eq_true in Hpb as Hposs
    |apply bool_decide_eq_false in Hpb as Hnposs].
  2:{ rewrite filter_cons_False by tauto. by apply IH. }
  destruct (N.leb_spec (target_cpus k) (num_online_cpus k)) as [Hstop|Hgo].
  { exists [], []. cbn. rewrite app_nil_r.
    split_and!; [done | done | apply prefix_nil | done | intros; lia | by right]. }
  unfold cpu_online.
  destruct (bool_decide_reflect (cpu ∈ cpu_online_mask k)) as [Hon|Hoff]; cbn [negb].
  { rewrite filter_cons_False by tauto. by apply IH. }
  rewrite filter_cons_True by done.
  destruct (online_step_spec cpu k) as ((l0 & Hl0 & Hr0) & Hm1 & Ht1).
  set (k1 := dprintk (MsgSwitchOnline cpu) (cpu_up P cpu k)) in *.
  destruct (IH k1 Hnd) as (req & l & Hl & Hr & Hpre & Hm & Hwhile & Hend).
  assert (filter (λ c, c ∈ cpu_possible_mask P ∧ c ∉ cpu_online_mask k1) rest =
          filter (λ c, c ∈ cpu_possible_mask P ∧ c ∉ cpu_online_mask k) rest) as Hsame.
  { apply filter_agree. intros x Hx. rewrite Hm1. cbn.
    assert (x ≠ cpu) by (intros ->; done). destruct (_ && _); set_solver. }
  rewrite Hsame in Hpre, Hend. rewrite Hm1 in Hm, Hwhile, Hend. rewrite Ht1 in Hwhile, Hend.
  exists (cpu :: req), (l0 ++ l). split_and!.
  - by rewrite Hl, Hl0, app_assoc.
  - unfold requests in *. by rewrite filter_app, Hr0, Hr.
  - by apply prefix_cons.
  - done.
  - intros [|n] Hn; [exact Hgo|]. cbn in Hn. apply Hwhile. lia.
  - destruct Hend as [->|Hend]; [by left | by right].
Qed.

(** X4: when the target is above the online count, the pass asks cpus to
    come online in ascending id order among the possible cpus that are
    offline, one request per cpu: the requests are a prefix of that list.
    The count is below the target before every request, and the sweep
    ends with the count at the target or above, or with every offline
    possible cpu asked; no cpu is asked to go offline. *)
Theorem online_pass_ascending_stops_at_target (k : kernel) :
  let t := compute_target (state_suspended k) (max_cpus_online (helper k)) in
  let online := cpu_online_mask k in
  let cands := offline_possible P online in
  let k' := state_helper_work P k in
  num_online_cpus k < t →
  ∃ req,
    requests (emitted k k') = CpuUp <$> req
    ∧ req `prefix_of` cands
    ∧ StronglySorted lt cands
    ∧ (∀ cpu, cpu ∈ cands → cpu ∈ cpu_possible_mask P ∧ cpu ∉ online)
    ∧ cpu_online_mask k' = mask_after_up P req online
    ∧ (∀ n, (n < length req)%nat →
         N.of_nat (size (mask_after_up P (take n req) online)) < t)
    ∧ (req = cands ∨ t ≤ num_online_cpus k').
Proof.
  intros t online cands k' Hlt.
  set (k0 := set_target_cpus t k).
  assert (k' = report P (online_loop P (cpu_ids P) k0)) as Hk'.
  { unfold k', state_helper_work. fold t. fold k0.
    change (num_online_cpus k0) with (num_online_cpus k).
    change (target_cpus k0) with t.
    destruct (N.ltb_spec t (num_online_cpus k)); [lia|].
    by destruct (N.ltb_spec (num_online_cpus k) t); [|lia]. }
  destruct (online_loop_spec (cpu_ids P) k0 (NoDup_seq _ _))
    as (req & l & Hl & Hr & Hpre & Hm & Hwhile & Hend).
  change (cpu_online_mask k0) with online in *.
  change (target_cpus k0) with t in *.
  change (klog k0) with (klog k) in Hl.
  fold (offline_possible P online) in Hpre, Hend. fold cands in Hpre, Hend.
  assert (cpu_online_mask k' = mask_after_up P req online) as Hmask.
  { by rewrite Hk', report_mask. }
  exists req. split_and!.
  - rewrite Hk', requests_report; rewrite (emitted_app _ _ _ Hl); done.
  - done.
  - apply filter_strongly_sorted, seq_strongly_sorted.
  - by intros cpu [? _]%list_elem_of_filter.
  - done.
  - done.
  - unfold num_online_cpus. rewrite Hmask. done.
Qed.

End Sweeps.

Section DebugFlag.
Context (P : platform).

(** *** The debug flag *)

Lemma requests_app l1 l2 : requests (l1 ++ l2) = requests l1 ++ requests l2.
Proof. apply filter_app. Qed.

Lemma requests_prints ms : requests (PrInfo <$> ms) = [].
Proof.
  induction ms as [|m ms IH]; [done|].
  unfold requests in *. rewrite fmap_cons, filter_cons_False; [done | by intros []].
Qed.

Lemma blind_dprintk m1 m2 k1 k2 :
  debug_blind k1 k2 → debug_blind (dprintk m1 k1) (dprintk m2 k2).
Proof.
  intros (He & Hm & Ht & Hwq & Hnc & Hnr & Hwp & Hs & Hmask & Hreq).
  unfold dprintk, pr_info.
  destruct (debug (helper k1) =? 0), (debug (helper k2) =? 0);
    unfold debug_blind; cbn; rewrite ?requests_app; cbn;
    rewrite ?app_nil_r; split_and!; done.
Qed.

Lemma blind_cpu_down cpu k1 k2 :
  debug_blind k1 k2 → debug_blind (cpu_down P cpu k1) (cpu_down P cpu k2).
Proof.
  intros (He & Hm & Ht & Hwq & Hnc & Hnr & Hwp & Hs & Hmask & Hreq).
  unfold cpu_down. cbn. rewrite Hmask.
  destruct (cpu_down_ok P (cpu_online_mask k2) cpu);
    unfold debug_blind; cbn; rewrite !requests_app, Hreq; split_and!; done.
Qed.

Lemma blind_cpu_up cpu k1 k2 :
  debug_blind k1 k2 → debug_blind (cpu_up P cpu k1) (cpu_up P cpu k2).
Proof.
  intros (He & Hm & Ht & Hwq & Hnc & Hnr & Hwp & Hs & Hmask & Hreq).
  unfold cpu_up. cbn. rewrite Hmask.
  destruct (cpu_possible P cpu && cpu_up_ok P (cpu_online_mask k2) cpu);
    unfold debug_blind; cbn; rewrite !requests_app, Hreq; split_and!; done.
Qed.

Lemma blind_tests cpu k1 k2 :
  debug_blind k1 k2 →
  cpu_online cpu k1 = cpu_online cpu k2
  ∧ num_online_cpus k1 = num_online_cpus k2
  ∧ target_cpus k1 = target_cpus k2.
Proof.
  intros (_ & _ & Ht & _ & _ & _ & _ & _ & Hmask & _).
  unfold cpu_online, num_online_cpus. by rewrite Hmask, Ht.
Qed.

Lemma blind_offline_loop cpus k1 k2 :
  debug_blind k1 k2 →
  debug_blind (offline_loop P cpus k1) (offline_loop P cpus k2).
Proof.
  revert k1 k2. induction cpus as [|cpu rest IH]; intros k1 k2 Hb; [done|].
  cbn [offline_loop]. destruct (blind_tests cpu k1 k2 Hb) as (-> & _ & _).
  destruct (cpu_online cpu k2); [|by apply IH].
  destruct (cpu =? 0)%nat; [by apply IH|].
  pose proof (blind_cpu_down cpu _ _
                (blind_dprintk (MsgSwitchOffline cpu) (MsgSwitchOffline cpu) _ _ Hb))
    as Hb1.
  destruct (blind_tests cpu _ _ Hb1) as (_ & -> & ->).
  case_match; [done | by apply IH].
Qed.

Lemma blind_online_loop cpus k1 k2 :
  debug_blind k1 k2 →
  debug_blind (online_loop P cpus k1) (online_loop P cpus k2).
Proof.
  revert k1 k2. induction cpus as [|cpu rest IH]; intros k1 k2 Hb; [done|].
  cbn [online_loop]. destruct (blind_tests cpu k1 k2 Hb) as (-> & -> & ->).
  destruct (cpu_possible P cpu); [|by apply IH].
  case_match; [done|].
  destruct (cpu_online cpu k2); cbn [negb]; [by apply IH|].
  apply IH, blind_dprintk, blind_cpu_up, Hb.
Qed.

Lemma blind_report k1 k2 :
  debug_blind k1 k2 → debug_blind (report P k1) (report P k2).
Proof.
  intros (He & Hm & Ht & Hwq & Hnc & Hnr & Hwp & Hs & Hmask & Hreq).
  destruct (report_spec P k1) as [ms1 ->]. destruct (report_spec P k2) as [ms2 ->].
  unfold debug_blind. cbn. rewrite !requests_app, !requests_prints, !app_nil_r.
  split_and!; done.
Qed.

Lemma blind_state_helper_work k1 k2 :
  debug_blind k1 k2 →
  debug_blind (state_helper_work P k1) (state_helper_work P k2).
Proof.
  intros Hb. pose proof Hb as (He & Hm & Ht & Hwq & Hnc & Hnr & Hwp & Hs & Hmask & Hreq).
  unfold state_helper_work. rewrite Hs, Hm.
  set (t := compute_target _ _).
  assert (debug_blind (set_target_cpus t k1) (set_target_cpus t k2)) as Hb0.
  { unfold debug_blind. cbn. split_and!; done. }
  destruct (blind_tests 0%nat _ _ Hb0) as (_ & -> & ->).
  repeat case_match.
  - by apply blind_report, blind_offline_loop.
  - by apply blind_report, blind_online_loop.
  - by apply blind_dprintk.
Qed.

(** X5: the debug flag has no effect on what a pass does: with any value
    of the flag the pass makes the same hotplug requests in the same
    order, computes the same target and leaves the same cpus online; only
    the printk calls differ. *)
Theorem pass_independent_of_debug (d : N) (k : kernel) :
  let k1 := state_helper_work P k in
  let k2 := state_helper_work P (set_debug d k) in
  requests (emitted (set_debug d k) k2) = requests (emitted k k1)
  ∧ cpu_online_mask k2 = cpu_online_mask k1
  ∧ target_cpus k2 = target_cpus k1
  ∧ enabled (helper k2) = enabled (helper k1)
  ∧ max_cpus_online (helper k2) = max_cpus_online (helper k1).
Proof.
  intros k1 k2.
  assert (debug_blind (set_debug d k) k) as Hb0.
  { unfold debug_blind. cbn. split_and!; done. }
  destruct (blind_state_helper_work _ _ Hb0)
    as (He & Hm & Ht & _ & _ & _ & _ & _ & Hmask & Hreq).
  fold k1 k2 in He, Hm, Ht, Hmask, Hreq.
  split_and!; try done.
  pose proof (logs_klog _ _ _ (state_helper_work_emits P k)) as H1.
  pose proof (logs_klog _ _ _ (state_helper_work_emits P (set_debug d k))) as H2.
  fold k1 in H1. fold k2 in H2. change (klog (set_debug d k)) with (klog k) in H2.
  rewrite H1, H2, !requests_app in Hreq. by apply app_inv_head in Hreq.
Qed.

(** X6: a write to [debug_mask] returns [count] exactly when the buffer
    scans as 0 or 1 and -EINVAL otherwise, in which case nothing changes;
    a valid write changes the debug flag and nothing else: it makes no
    call into the kernel and queues no pass, enabled or not. *)
Theorem store_debug_mask_spec (buf : string) (count : N) (k : kernel) :
  let r := store_debug_mask P buf count k in
  let valid := ∃ val, sscanf_u P buf = Some val ∧ val ≤ 1 in
  (r.1 = Z.of_N count ↔ valid)
  ∧ (¬ valid → r = ((- EINVAL)%Z, k))
  ∧ (∀ val, sscanf_u P buf = Some val → val ≤ 1 →
       r = (Z.of_N count, set_debug val k))
  ∧ emitted k r.2 = []
  ∧ work_pending r.2 = work_pending k
  ∧ cpu_online_mask r.2 = cpu_online_mask k
  ∧ enabled (helper r.2) = enabled (helper k)
  ∧ max_cpus_online (helper r.2) = max_cpus_online (helper k).
Proof.
  cbn zeta. unfold store_debug_mask.
  destruct (sscanf_u P buf) as [val|] eqn:Hscan.
  2:{ split_and!; try done; try apply emitted_same.
      - cbn. split; [unfold EINVAL; lia | by intros (? & ? & ?)]. }
  destruct (N.ltb_spec val 0) as [?|_]; [lia|].
  destruct (N.ltb_spec 1 val) as [Hhi|Hle]; cbn.
  { split_and!; try done; try apply emitted_same.
    - split; [unfold EINVAL; lia | intros (? & [= <-] & ?); lia].
    - intros ? [= <-] ?. lia. }
  destruct (N.eqb_spec val (debug (helper k))) as [->|Hne]; cbn.
  - split_and!; try done; try apply emitted_same.
    + split; [by exists (debug (helper k)) | done].
    + intros Hno. destruct Hno. by exists (debug (helper k)).
    + intros ? [= <-] _. by destruct k as [[]].
  - split_and!; try done.
    + split; [by exists val | done].
    + intros Hno. destruct Hno. by exists val.
    + by intros ? [= <-] _.
    + apply emitted_app. cbn. by rewrite app_nil_r.
Qed.

End DebugFlag.

Section Lifecycle.
Context (P : platform).

(** *** Starting and stopping through the enabled attribute *)

Lemma state_helper_start_fields k :
  let k' := state_helper_start P k in
  max_cpus_online (helper k') = max_cpus_online (helper k)
  ∧ debug (helper k') = debug (helper k)
  ∧ cpu_online_mask k' = cpu_online_mask k
  ∧ state_suspended k' = state_suspended k
  ∧ ((enabled (helper k') = enabled (helper k) ∧ helper_wq k' = WqLive
      ∧ notif_registered k' = true ∧ notifier_call k' = true
      ∧ work_pending k' = true)
     ∨ (enabled (helper k') = 0 ∧ helper_wq k' ≠ WqLive
        ∧ notif_registered k' = notif_registered k
        ∧ work_pending k' = work_pending k
        ∧ (QueueDelayedWork ∉ emitted k k')
        ∧ requests (emitted k k') = []
        ∧ (PrErr MsgAllocFailed ∈ emitted k k'
           ∨ PrErr MsgRegisterFailed ∈ emitted k k'))).
Proof.
  cbn zeta. unfold state_helper_start.
  destruct (alloc_workqueue_ok P k).
  - destruct (state_register_client_ok P _).
    + split_and!; try done. by left.
    + split_and!; try done. right.
      rewrite (emitted_app k _ [AllocWorkqueue; StateRegisterClient;
                                PrErr MsgRegisterFailed; DestroyWorkqueue])
        by (cbn; by rewrite <- !app_assoc).
      split_and!; try done.
      * intros Hin. by repeat (apply elem_of_cons in Hin as [?|Hin]; [done|]);
          apply elem_of_nil in Hin.
      * right. do 2 right. left.
  - split_and!; try done. right.
    rewrite (emitted_app k _ [AllocWorkqueue; PrErr MsgAllocFailed])
      by (cbn; by rewrite <- !app_assoc).
    split_and!; try done.
    * intros Hin. by repeat (apply elem_of_cons in Hin as [?|Hin]; [done|]);
        apply elem_of_nil in Hin.
    * left. right. left.
Qed.

(** X7: a write to [enabled] returns [count] exactly when the buffer scans
    as 0 or 1 and -EINVAL otherwise, in which case nothing changes.  A
    valid write never touches the maximum or the debug flag, and leaves
    the enabled flag at the value written, or at 0 when the value written
    was 1 and the start failed; the write returns [count] in that case
    too. *)
Theorem store_enabled_spec (buf : string) (count : N) (k : kernel) :
  let r := store_enabled P buf count k in
  let valid := ∃ val, sscanf_u P buf = Some val ∧ val ≤ 1 in
  (r.1 = Z.of_N count ↔ valid)
  ∧ (¬ valid → r = ((- EINVAL)%Z, k))
  ∧ max_cpus_online (helper r.2) = max_cpus_online (helper k)
  ∧ debug (helper r.2) = debug (helper k)
  ∧ (∀ val, sscanf_u P buf = Some val → val ≤ 1 →
       r.1 = Z.of_N count
       ∧ (enabled (helper r.2) = val ∨ (val = 1 ∧ enabled (helper r.2) = 0))).
Proof.
  cbn zeta. unfold store_enabled.
  destruct (sscanf_u P buf) as [val|] eqn:Hscan.
  2:{ split_and!; try done. cbn. split; [unfold EINVAL; lia | by intros (? & ? & ?)]. }
  destruct (N.ltb_spec val 0) as [?|_]; [lia|].
  destruct (N.ltb_spec 1 val) as [Hhi|Hle]; cbn.
  { split_and!; try done.
    - split; [unfold EINVAL; lia | intros (? & [= <-] & ?); lia].
    - intros ? [= <-] ?. lia. }
  assert (∃ v, Some val = Some v ∧ v ≤ 1) as Hvalid by (by exists val).
  destruct (N.eqb_spec val (enabled (helper k))) as [->|Hne]; cbn.
  { split_and!; try done. intros ? [= <-] _. by split; [|left]. }
  destruct (N.eqb_spec val 0) as [->|Hnz].
  - destruct (state_helper_stop_fields P (set_enabled 0 k)) as (Hh & _).
    rewrite Hh. split_and!; try done. intros ? [= <-] _. by split; [|left].
  - destruct (state_helper_start_fields (set_enabled val k))
      as (Hm & Hd & _ & _ & Hcase).
    rewrite Hm, Hd. split_and!; try done. intros ? [= <-] _. split; [done|].
    destruct Hcase as [(He & _)|(He & _)]; [by left | right]. split; [lia | done].
Qed.

(** X8: when the governor is off and 1 is written to [enabled] but the
    work queue cannot be allocated or the notifier cannot be registered,
    the write still returns [count]; the enabled flag is back at 0, an
    error has been printed, no pass is queued, no hotplug request is made,
    the notifier registration and the online cpus are as before, and
    [helper_wq] does not point to a live queue. *)
Theorem store_enabled_failed_start (buf : string) (count : N) (k : kernel) :
  sscanf_u P buf = Some 1 →
  enabled (helper k) = 0 →
  (∀ k', alloc_workqueue_ok P k' = false)
  ∨ (∀ k', state_register_client_ok P k' = false) →
  let r := store_enabled P buf count k in
  r.1 = Z.of_N count
  ∧ enabled (helper r.2) = 0
  ∧ helper_wq r.2 ≠ WqLive
  ∧ notif_registered r.2 = notif_registered k
  ∧ work_pending r.2 = work_pending k
  ∧ cpu_online_mask r.2 = cpu_online_mask k
  ∧ (QueueDelayedWork ∉ emitted k r.2)
  ∧ requests (emitted k r.2) = []
  ∧ (PrErr MsgAllocFailed ∈ emitted k r.2
     ∨ PrErr MsgRegisterFailed ∈ emitted k r.2).
Proof.
  intros Hscan Hoff Hfail. cbn zeta. unfold store_enabled. rewrite Hscan, Hoff. cbn.
  destruct (state_helper_start_fields (set_enabled 1 k))
    as (_ & _ & Hmask & _ & [(_ & Hwq & Hreg & _)|Hfailed]).
  - exfalso. unfold state_helper_start in Hwq, Hreg.
    destruct Hfail as [Hfail|Hfail].
    + by rewrite Hfail in Hwq.
    + destruct (alloc_workqueue_ok P _); [|done]. by rewrite Hfail in Hwq.
  - destruct Hfailed as (He & Hwq & Hreg & Hwp & Hq & Hr & Herr).
    change (emitted (set_enabled 1 k)) with (emitted k) in *.
    split_and!; done.
Qed.

(** X9: when the governor is on and 0 is written to [enabled], the write
    returns [count], the flag is 0, the notifier is off the chain, no pass
    is pending, the work queue has not been destroyed, and every possible
    cpu has been asked to come online unless it already was; on a platform
    that honours those requests every possible cpu is online. *)
Theorem store_enabled_off_restores (buf : string) (count : N) (k : kernel) :
  sscanf_u P buf = Some 0 →
  enabled (helper k) ≠ 0 →
  let r := store_enabled P buf count k in
  r.1 = Z.of_N count
  ∧ enabled (helper r.2) = 0
  ∧ notif_registered r.2 = false
  ∧ work_pending r.2 = false
  ∧ helper_wq r.2 = helper_wq k
  ∧ (DestroyWorkqueue ∉ emitted k r.2)
  ∧ ((∀ m cpu, cpu_up_ok P m cpu = true) →
     (∀ cpu, cpu ∈ cpu_possible_mask P → (cpu < nr_cpu_ids P)%nat) →
     cpu_possible_mask P ⊆ cpu_online_mask r.2).
Proof.
  intros Hscan Hon. cbn zeta. unfold store_enabled. rewrite Hscan.
  change ((0 <? 0) || (1 <? 0)) with false. cbv iota.
  destruct (N.eqb_spec 0 (enabled (helper k))) as [?|_]; [done|].
  change (enabled (helper (set_enabled 0 k)) =? 0) with true. cbv iota.
  set (k0 := set_enabled 0 k). cbn [fst snd].
  destruct (state_helper_stop_fields P k0) as (Hh & Hwq & _ & Hnr & Hwp & _).
  pose proof (logs_emitted _ _ _ (state_helper_stop_emits P k0)) as Hall.
  change (emitted k0) with (emitted k) in Hall.
  split_and!; try done.
  - by rewrite Hh.
  - intros Hin. rewrite Forall_forall in Hall. specialize (Hall _ Hin).
    destruct Hall as [[]|[?|[?|?]]]; done.
  - intros Hok Hids.
    destruct (wake_loop_spec P (cpu_ids P) (drain P k0) (NoDup_seq _ _)) as (_ & _ & Hall').
    intros cpu Hp. apply Hall'; [done | | done].
    unfold cpu_ids. rewrite elem_of_seq. specialize (Hids cpu Hp). lia.
Qed.

End Lifecycle.

Section Invariants.
Context (P : platform).

(** *** What stays true along a run *)

Lemma step_helper_cases o k :
  let k' := step P o k in
  (enabled (helper k') = enabled (helper k) ∨ enabled (helper k') ≤ 1)
  ∧ (max_cpus_online (helper k') = max_cpus_online (helper k)
     ∨ 1 ≤ max_cpus_online (helper k') ≤ NR_CPUS P)
  ∧ (debug (helper k') = debug (helper k) ∨ debug (helper k') ≤ 1).
Proof.
  cbn zeta. destruct o as [buf count|buf count|buf count|b| | | |m]; cbn [step].
  - destruct (store_enabled_spec P buf count k) as (_ & Hbad & Hm & Hd & Hval).
    destruct (sscanf_u P buf) as [val|] eqn:Hscan.
    2:{ rewrite Hbad by (by intros (? & ? & ?)). cbn. tauto. }
    destruct (decide (val ≤ 1)) as [Hle|Hgt].
    2:{ rewrite Hbad by (intros (? & [= <-] & ?); lia). cbn. tauto. }
    destruct (Hval val eq_refl Hle) as (_ & He).
    split_and!; [right; lia | by left | by left].
  - unfold store_max_cpus_online. destruct (sscanf_u P buf) as [val|]; [|cbn; tauto].
    destruct (N.ltb_spec val 1); cbn; [tauto|].
    destruct (N.ltb_spec (NR_CPUS P) val); cbn; [tauto|].
    destruct (enabled (helper k) =? 0); cbn; split_and!; (by left) || (right; lia).
  - unfold store_debug_mask. destruct (sscanf_u P buf) as [val|]; [|cbn; tauto].
    destruct (N.ltb_spec val 0); cbn; [tauto|].
    destruct (N.ltb_spec 1 val); cbn; [tauto|].
    destruct (val =? debug (helper k)); cbn; split_and!; (by left) || (right; lia).
  - unfold state_notifier_callback. repeat case_match; cbn; tauto.
  - destruct (run_pending_work_fields P k) as (-> & _). tauto.
  - unfold state_helper_probe. cbn. case_match; [tauto|].
    destruct (state_helper_start_fields P (emit SysfsCreateGroup k))
      as (-> & -> & _ & _ & [(-> & _)|(-> & _)]); cbn; split_and!;
      (by left) || (right; lia).
  - unfold state_helper_remove. cbn. case_match; [tauto|].
    destruct (state_helper_stop_fields P k) as (-> & _). tauto.
  - cbn. tauto.
Qed.

(** X10: the three settings stay within the ranges their setters enforce
    through every operation of the module, probe and remove included:
    enabled and debug at 0 or 1, the maximum between 1 and [NR_CPUS]. *)
Theorem config_in_range_run (os : list op) (k : kernel) :
  config_in_range P k → config_in_range P (run P os k).
Proof.
  revert k. induction os as [|o os IH]; intros k Hk; [done|].
  cbn. apply IH. destruct Hk as (He & Hm & Hd).
  destruct (step_helper_cases o k) as (He' & Hm' & Hd').
  unfold config_in_range. split_and!.
  - destruct He' as [->|?]; done.
  - destruct Hm' as [->|?]; [lia|lia].
  - destruct Hm' as [->|?]; [lia|lia].
  - destruct Hd' as [->|?]; done.
Qed.

Lemma governor_inv_step o k :
  runtime_op o → governor_inv P k → governor_inv P (step P o k).
Proof.
  intros Hrt (Hcfg & Hoff & Hon).
  split; [by apply (config_in_range_run [o])|].
  destruct o as [buf count|buf count|buf count|b| | | |m]; cbn [step]; try done.
  - unfold store_enabled. destruct (sscanf_u P buf) as [val|]; [|done].
    destruct (N.ltb_spec val 0); [done|].
    destruct (N.ltb_spec 1 val); cbn; [done|].
    destruct (N.eqb_spec val (enabled (helper k))) as [->|Hne]; [done|]. cbn.
    destruct (N.eqb_spec val 0) as [->|Hnz].
    + destruct (state_helper_stop_fields P (set_enabled 0 k))
        as (-> & _ & _ & -> & -> & _). cbn. split; [done | by intros []].
    + destruct (state_helper_start_fields P (set_enabled val k))
        as (_ & _ & _ & _ & [(-> & -> & -> & -> & _)|(-> & _ & -> & -> & _)]); cbn.
      * split; [done | by intros _].
      * destruct Hcfg as (He & _). assert (enabled (helper k) = 0) as Hz by lia.
        split; [by intros _; apply Hoff | by intros []].
  - unfold store_max_cpus_online. destruct (sscanf_u P buf) as [val|]; [|done].
    destruct (N.ltb_spec val 1); cbn; [done|].
    destruct (N.ltb_spec (NR_CPUS P) val); cbn; [done|].
    destruct (N.eqb_spec (enabled (helper k)) 0) as [Hz|Hnz]; cbn; [done|].
    split; [by intros ? | by intros _; apply Hon].
  - unfold store_debug_mask. destruct (sscanf_u P buf) as [val|]; [|done].
    destruct (N.ltb_spec val 0); cbn; [done|].
    destruct (N.ltb_spec 1 val); cbn; [done|].
    destruct (val =? debug (helper k)); cbn; done.
  - change (notif_registered (set_state_suspended b k)) with (notif_registered k).
    destruct (decide (notif_registered k = true)) as [Hreg|Hreg%not_true_is_false];
      rewrite Hreg; [|by split].
    unfold state_notifier_callback.
    change (enabled (helper (set_state_suspended b k))) with (enabled (helper k)).
    destruct (N.eqb_spec (enabled (helper k)) 0) as [Hz|Hnz]; cbn; [by split|].
    split; [by intros ? | by intros _; apply Hon].
  - destruct (run_pending_work_fields P k) as (-> & -> & -> & -> & -> & _).
    split; [by intros Hz; destruct (Hoff Hz) | done].
Qed.

(** X11: between probe and remove the enabled flag tells what the governor
    holds: while it is 0 the notifier is not on the chain and no pass is
    pending; while it is not, the work queue is live and the notifier
    registered.  This holds when the module has just been loaded and
    probed, and through every sysfs write, notification, worker run and
    outside hotplug after that. *)
Theorem governor_inv_run (os : list op) (k : kernel) (suspended : bool)
    (online : gset nat) :
  (Forall runtime_op os → governor_inv P k → governor_inv P (run P os k))
  ∧ (1 ≤ NR_CPUS P →
     governor_inv P (state_helper_probe P (module_load P suspended online)).2).
Proof.
  split.
  - revert k. induction os as [|o os IH]; intros k Hos Hk; [done|].
    apply Forall_cons in Hos as [Ho Hos]. cbn. by apply IH, governor_inv_step.
  - intros Hn. unfold governor_inv, config_in_range. cbn.
    unfold DEFAULT_MAX_CPUS_ONLINE, HELPER_ENABLED, DEBUG_MASK.
    split_and!; try done; lia.
Qed.

Lemma quiescent_step o k :
  runtime_op o → (∀ buf count, o ≠ OpStoreEnabled buf count) →
  governor_inv P k → enabled (helper k) = 0 →
  klog (step P o k) = klog k
  ∧ enabled (helper (step P o k)) = 0
  ∧ ((∀ m, o ≠ OpHotplug m) → cpu_online_mask (step P o k) = cpu_online_mask k).
Proof.
  intros Hrt Hns (Hcfg & Hoff & Hon) Hz. destruct (Hoff Hz) as [Hreg Hwp].
  destruct o as [buf count|buf count|buf count|b| | | |m]; cbn [step]; try done.
  - by destruct (Hns buf count).
  - unfold store_max_cpus_online. destruct (sscanf_u P buf) as [val|]; [|done].
    destruct (N.ltb_spec val 1); cbn; [done|].
    destruct (N.ltb_spec (NR_CPUS P) val); cbn; [done|].
    rewrite Hz. done.
  - unfold store_debug_mask. destruct (sscanf_u P buf) as [val|]; [|done].
    destruct (N.ltb_spec val 0); cbn; [done|].
    destruct (N.ltb_spec 1 val); cbn; [done|].
    destruct (val =? debug (helper k)); cbn; done.
  - cbn. rewrite Hreg. done.
  - unfold run_pending_work. rewrite Hwp. done.
  - split_and!; [done | done |]. intros Hm. by destruct (Hm m).
Qed.

(** X12: while the governor is off it makes no call into the kernel at
    all: through any sequence of notifications, worker runs, writes to
    [max_cpus_online] and [debug_mask] and outside hotplug the log stays
    as it was, so no hotplug request is made and no pass is queued, and
    the flag stays 0. *)
Theorem disabled_governor_is_quiescent (os : list op) (k : kernel) :
  governor_inv P k →
  enabled (helper k) = 0 →
  Forall (λ o, runtime_op o ∧ ∀ buf count, o ≠ OpStoreEnabled buf count) os →
  klog (run P os k) = klog k
  ∧ emitted k (run P os k) = []
  ∧ enabled (helper (run P os k)) = 0
  ∧ work_pending (run P os k) = false
  ∧ ((∀ o m, o ∈ os → o ≠ OpHotplug m) →
     cpu_online_mask (run P os k) = cpu_online_mask k).
Proof.
  intros Hinv Hz Hos.
  assert (klog (run P os k) = klog k ∧ enabled (helper (run P os k)) = 0
          ∧ governor_inv P (run P os k)
          ∧ ((∀ o m, o ∈ os → o ≠ OpHotplug m) →
             cpu_online_mask (run P os k) = cpu_online_mask k))
    as (Hlog & Hz' & Hinv' & Hmask).
  { revert k Hinv Hz. induction os as [|o os IH]; intros k Hinv Hz; [done|].
    apply Forall_cons in Hos as [[Hrt Hns] Hos].
    destruct (quiescent_step o k Hrt Hns Hinv Hz) as (Hl & Hz1 & Hm1).
    pose proof (governor_inv_step o k Hrt Hinv) as Hinv1.
    destruct (IH Hos (step P o k) Hinv1 Hz1) as (Hl' & Hz' & Hinv' & Hm').
    change (run P (o :: os) k) with (run P os (step P o k)).
    split_and!; [by rewrite Hl', Hl | done | done |].
    intros Hnh. rewrite Hm' by (intros o' m Ho'; apply Hnh; by right).
    apply Hm1. intros m. apply Hnh. by left. }
  split_and!; try done.
  - apply emitted_app. by rewrite Hlog, app_nil_r.
  - destruct Hinv' as (_ & Hoff & _). by destruct (Hoff Hz').
Qed.

(** *** Switching on, and the worker *)

(** X13: switching the governor on and letting the worker run brings the
    platform to the target: on a platform where the start succeeds and no
    hotplug request is refused, with the cores populated and cpu 0 online,
    after a write of 1 to [enabled] and one worker run the flag is 1, no
    pass is pending, and the online count is the target (1 when suspended,
    the maximum otherwise). *)
Theorem enable_then_worker_converges (buf : string) (count : N) (k : kernel) :
  always_starts P → never_refuses P → cores_populated P →
  sscanf_u P buf = Some 1 →
  enabled (helper k) = 0 →
  1 ≤ max_cpus_online (helper k) ≤ NR_CPUS P →
  0%nat ∈ cpu_online_mask k →
  cpu_online_mask k ⊆ cpu_possible_mask P →
  let k' := run P [OpStoreEnabled buf count; OpWorker] k in
  enabled (helper k') = 1
  ∧ work_pending k' = false
  ∧ notif_registered k' = true
  ∧ num_online_cpus k' =
    compute_target (state_suspended k) (max_cpus_online (helper k))
  ∧ 0%nat ∈ cpu_online_mask k'.
Proof.
  intros [Halloc Hreg] Hnr Hpop Hscan Hz Hmax H0 Hsub. cbn zeta. cbn [run foldl step].
  unfold store_enabled. rewrite Hscan, Hz. cbn.
  unfold state_helper_start. rewrite Halloc, Hreg.
  unfold run_pending_work. cbn [work_pending reschedule_work set_work_pending].
  match goal with |- context [state_helper_work P ?x] => set (k1 := x) end.
  destruct (state_helper_work_frame P k1) as (Hh & _ & _ & _ & Hnr' & Hwp & _).
  destruct (pass_converges P k1 Hnr Hpop Hmax H0 Hsub) as (Hc & _ & H0').
  rewrite Hh, Hnr', Hwp. split_and!; done.
Qed.


(** *** Reading an attribute and writing it back *)

(** X15: with the settings in range, and a [sscanf] that reads back what
    [sprintf] printed for them, writing back what [show_enabled] and
    [show_debug_mask] printed is accepted and changes nothing at all, and
    writing back what [show_max_cpus_online] printed is accepted and
    leaves the configuration as it was (queueing a pass when the governor
    is on). *)
Theorem shown_value_is_accepted (count : N) (k : kernel) :
  config_in_range P k →
  sscanf_u P (show_enabled k).2 = Some (enabled (helper k)) →
  sscanf_u P (show_max_cpus_online k).2 = Some (max_cpus_online (helper k)) →
  sscanf_u P (show_debug_mask k).2 = Some (debug (helper k)) →
  store_enabled P (show_enabled k).2 count k = (Z.of_N count, k)
  ∧ store_debug_mask P (show_debug_mask k).2 count k = (Z.of_N count, k)
  ∧ (store_max_cpus_online P (show_max_cpus_online k).2 count k).1 = Z.of_N count
  ∧ helper (store_max_cpus_online P (show_max_cpus_online k).2 count k).2 = helper k
  ∧ cpu_online_mask (store_max_cpus_online P (show_max_cpus_online k).2 count k).2
    = cpu_online_mask k.
Proof.
  intros (He & Hm & Hd) Hse Hsm Hsd.
  unfold store_enabled, store_debug_mask, store_max_cpus_online.
  rewrite Hse, Hsm, Hsd.
  destruct (N.ltb_spec (enabled (helper k)) 0); [lia|].
  destruct (N.ltb_spec 1 (enabled (helper k))); [lia|].
  destruct (N.ltb_spec (debug (helper k)) 0); [lia|].
  destruct (N.ltb_spec 1 (debug (helper k))); [lia|].
  destruct (N.ltb_spec (max_cpus_online (helper k)) 1); [lia|].
  destruct (N.ltb_spec (NR_CPUS P) (max_cpus_online (helper k))); [lia|].
  rewrite !N.eqb_refl. cbn.
  split_and!; try done.
  - destruct (enabled (helper k) =? 0); by destruct k as [[]].
  - by destruct (enabled (helper k) =? 0).
Qed.

End Invariants.

(** ** Instances of the further properties *)

Lemma quad_always_starts : always_starts quad.
Proof. by split. Qed.

Lemma quad_boot_inv : governor_inv quad quad_boot.
Proof.
  unfold governor_inv, config_in_range. cbn. split_and!; try done; lia.
Qed.

Lemma quad_boot_cpu0 : 0%nat ∈ cpu_online_mask quad_boot.
Proof.
  change (0%nat ∈ (list_to_set (seq 0 4) : gset nat)).
  apply elem_of_list_to_set, elem_of_seq. lia.
Qed.

Lemma pass_never_overshoots_witness :
  1 ≤ num_online_cpus (state_helper_work stubborn quad_suspended) ≤ 4.
Proof.
  pose proof (pass_never_overshoots stubborn quad_suspended) as (H & _).
  apply H. vm_compute. reflexivity.
Defined.

Lemma online_pass_ascending_stops_at_target_witness :
  ∃ req,
    requests (emitted (set_state_suspended false quad_parked)
                (state_helper_work quad (set_state_suspended false quad_parked))) =
      CpuUp <$> req
    ∧ req `prefix_of` offline_possible quad {[0%nat]}.
Proof.
  destruct (online_pass_ascending_stops_at_target quad
              (set_state_suspended false quad_parked)) as (req & Hreq & Hpre & _).
  - vm_compute. reflexivity.
  - exists req. split; [exact Hreq | exact Hpre].
Defined.

Lemma store_debug_mask_spec_witness :
  store_debug_mask quad "0" 2 quad_enabled = (2%Z, set_debug 0 quad_enabled)
  ∧ store_debug_mask quad "7" 2 quad_enabled = ((-22)%Z, quad_enabled).
Proof.
  pose proof (store_debug_mask_spec quad "0" 2 quad_enabled) as (_ & _ & Hok & _).
  pose proof (store_debug_mask_spec quad "7" 2 quad_enabled) as (_ & Hbad & _).
  split.
  - apply Hok; [reflexivity | lia].
  - apply Hbad. intros (val & [= <-] & ?). lia.
Defined.

Lemma store_enabled_spec_witness :
  (store_enabled quad "1" 2 quad_boot).1 = 2%Z
  ∧ store_enabled quad "2" 2 quad_boot = ((-22)%Z, quad_boot).
Proof.
  pose proof (store_enabled_spec quad "1" 2 quad_boot) as (_ & _ & _ & _ & Hok).
  pose proof (store_enabled_spec quad "2" 2 quad_boot) as (_ & Hbad & _).
  split.
  - apply (Hok 1); [reflexivity | lia].
  - apply Hbad. intros (val & [= <-] & ?). lia.
Defined.

Lemma store_enabled_failed_start_witness :
  (store_enabled quad_no_memory "1" 2 quad_boot).1 = 2%Z
  ∧ enabled (helper (store_enabled quad_no_memory "1" 2 quad_boot).2) = 0
  ∧ helper_wq (store_enabled quad_no_memory "1" 2 quad_boot).2 ≠ WqLive.
Proof.
  destruct (store_enabled_failed_start quad_no_memory "1" 2 quad_boot)
    as (H1 & H2 & H3 & _).
  - reflexivity.
  - reflexivity.
  - left. reflexivity.
  - split_and!; [exact H1 | exact H2 | exact H3].
Defined.

Lemma store_enabled_off_restores_witness :
  enabled (helper (store_enabled quad "0" 2 quad_parked).2) = 0
  ∧ cpu_possible_mask quad ⊆ cpu_online_mask (store_enabled quad "0" 2 quad_parked).2.
Proof.
  destruct (store_enabled_off_restores quad "0" 2 quad_parked)
    as (_ & H1 & _ & _ & _ & _ & H2).
  - reflexivity.
  - cbn. lia.
  - split; [exact H1|]. apply H2; [reflexivity | apply quad_cores_populated].
Defined.

Lemma config_in_range_run_witness :
  config_in_range quad
    (run quad [OpStoreMaxCpusOnline "9" 2; OpProbe; OpStoreEnabled "1" 2; OpRemove]
       quad_boot).
Proof.
  apply config_in_range_run. unfold config_in_range. split_and!; by vm_compute.
Defined.

Lemma governor_inv_run_witness :
  governor_inv quad
    (run quad [OpStoreEnabled "1" 2; OpStateNotify true; OpWorker;
               OpStoreEnabled "0" 2] quad_boot).
Proof.
  apply (governor_inv_run quad _ quad_boot false ∅).
  - repeat constructor.
  - exact quad_boot_inv.
Defined.

Lemma disabled_governor_is_quiescent_witness :
  emitted quad_boot
    (run quad [OpStateNotify true; OpStoreMaxCpusOnline "2" 2; OpWorker] quad_boot)
  = [].
Proof.
  destruct (disabled_governor_is_quiescent quad
              [OpStateNotify true; OpStoreMaxCpusOnline "2" 2; OpWorker] quad_boot)
    as (_ & H & _).
  - exact quad_boot_inv.
  - reflexivity.
  - repeat constructor; done.
  - exact H.
Defined.

Lemma enable_then_worker_converges_witness :
  num_online_cpus (run quad [OpStoreEnabled "1" 2; OpWorker] quad_boot) = 4.
Proof.
  destruct (enable_then_worker_converges quad "1" 2 quad_boot)
    as (_ & _ & _ & H & _).
  - exact quad_always_starts.
  - exact quad_never_refuses.
  - exact quad_cores_populated.
  - reflexivity.
  - reflexivity.
  - cbn. lia.
  - exact quad_boot_cpu0.
  - reflexivity.
  - exact H.
Defined.


Lemma shown_value_is_accepted_witness :
  store_enabled quad (show_enabled quad_enabled).2 2 quad_enabled = (2%Z, quad_enabled)
  ∧ helper (store_max_cpus_online quad (show_max_cpus_online quad_enabled).2 2
              quad_enabled).2 = helper quad_enabled.
Proof.
  destruct (shown_value_is_accepted quad 2 quad_enabled) as (H1 & _ & _ & H2 & _).
  - unfold config_in_range. split_and!; by vm_compute.
  - vm_compute. reflexivity.
  - vm_compute. reflexivity.
  - vm_compute. reflexivity.
  - split; [exact H1 | exact H2].
Defined.

(** What the attributes print. *)
Example show_on_quad :
  show_max_cpus_online quad_enabled =
    (2%Z, "4" +:+ String (Ascii.ascii_of_nat 10) EmptyString)
  ∧ (show_enabled quad_boot).1 = 2%Z.
Proof. by vm_compute. Qed.

Section Remove.
Context (P : platform).

(** *** Remove *)

(** X16: [state_helper_remove] always returns 0.  With the governor off it
    does nothing; with the governor on it stops it (notifier off the
    chain, nothing pending) but leaves the enabled flag as it was, so a
    later write to [enabled] of the value the flag still holds returns
    [count] without restarting anything. *)
Theorem remove_leaves_flag_set (buf : string) (count : N) (k : kernel) :
  let r := state_helper_remove P k in
  r.1 = 0%Z
  ∧ helper r.2 = helper k
  ∧ (enabled (helper k) = 0 → r.2 = k)
  ∧ (enabled (helper k) ≠ 0 →
       r.2 = state_helper_stop P k
       ∧ notif_registered r.2 = false
       ∧ work_pending r.2 = false
       ∧ (enabled (helper k) ≤ 1 →
          sscanf_u P buf = Some (enabled (helper k)) →
          store_enabled P buf count r.2 = (Z.of_N count, r.2))).
Proof.
  cbn zeta. unfold state_helper_remove. cbn [fst snd].
  destruct (N.eqb_spec (enabled (helper k)) 0) as [Hz|Hnz].
  { split_and!; done. }
  destruct (state_helper_stop_fields P k) as (Hh & _ & _ & Hnr & Hwp & _).
  split_and!; try done. intros _. split_and!; try done.
  intros Hle Hscan. unfold store_enabled. rewrite Hscan, Hh.
  destruct (N.ltb_spec (enabled (helper k)) 0); [lia|].
  destruct (N.ltb_spec 1 (enabled (helper k))); [lia|].
  by rewrite N.eqb_refl.
Qed.

End Remove.

Lemma remove_leaves_flag_set_witness :
  enabled (helper (state_helper_remove quad quad_enabled).2) = 1
  ∧ notif_registered (state_helper_remove quad quad_enabled).2 = false
  ∧ store_enabled quad "1" 2 (state_helper_remove quad quad_enabled).2
    = (2%Z, (state_helper_remove quad quad_enabled).2).
Proof.
  pose proof (remove_leaves_flag_set quad "1" 2 quad_enabled) as (_ & Hh & _ & H).
  destruct H as (_ & Hnr & _ & Hst); [by vm_compute|].
  split_and!.
  - by rewrite Hh.
  - exact Hnr.
  - apply Hst; [by vm_compute | reflexivity].
Defined.
